(** * WhatsApp broadcast over the Mekari/Qontak API: the signed request
      pipeline and the batch loop

    A shallow embedding of [generate_auth_headers], [validate_dataframe],
    [send_whatsapp] and the [run_clicked] block of the Streamlit script,
    followed by the properties the specification states about them.

    Conventions.
    - A Python [str] is a [string] whose characters are code points below
      256; [str.encode()] is UTF-8, so a code point from 128 on becomes two
      bytes.  Bytes are integers in [0, 255].
    - A Python [float] is carried by its [repr], which decides the three
      things the program does with one: test its truth value, format it and
      serialise it.
    - The network and the clock are oracles over the history of effects;
      every effectful function threads that history and may raise. *)

From Stdlib Require Import ZArith List String Ascii Bool Lia QArith.
From Stdlib Require Import DecimalString.
Import ListNotations.

Local Open Scope string_scope.
Local Open Scope Z_scope.
Local Open Scope list_scope.

(** Concatenation of texts, as in an f-string. *)
Infix "+++" := String.append (at level 60, right associativity).

(** ** Text and bytes *)

Definition code (c : ascii) : Z := Z.of_N (N_of_ascii c).
Definition chr (z : Z) : ascii := ascii_of_N (Z.to_N z).

Fixpoint codes (s : string) : list Z :=
  match s with
  | EmptyString => []
  | String c r => code c :: codes r
  end.

Fixpoint text_of (l : list Z) : string :=
  match l with
  | [] => EmptyString
  | z :: r => String (chr z) (text_of r)
  end.

(** [str.encode()]: UTF-8 of a text of code points below 256. *)
Fixpoint encode (s : string) : list Z :=
  match s with
  | EmptyString => []
  | String c r =>
      let z := code c in
      if z <? 128 then z :: encode r
      else Z.lor 192 (Z.shiftr z 6) :: Z.lor 128 (Z.land z 63) :: encode r
  end.

(** [str(n)] for an integer. *)
Definition dec (z : Z) : string := NilZero.string_of_int (Z.to_int z).

(** A field printed on two digits ([%d], [%H], [%M], [%S]). *)
Definition dec2 (z : Z) : string :=
  if z <? 10 then "0" +++ dec z else dec z.

Definition hex_digit (z : Z) : ascii :=
  if z <? 10 then chr (48 + z) else chr (87 + z).

Definition hex2 (z : Z) : string :=
  String (hex_digit (z / 16)) (String (hex_digit (z mod 16)) EmptyString).

Fixpoint hex (l : list Z) : string :=
  match l with
  | [] => EmptyString
  | z :: r => hex2 z +++ hex r
  end.

Fixpoint join (sep : string) (l : list string) : string :=
  match l with
  | [] => ""
  | [x] => x
  | x :: r => x +++ sep +++ join sep r
  end.

Fixpoint prefixb (p s : string) : bool :=
  match p, s with
  | EmptyString, _ => true
  | String a p', String b s' => Ascii.eqb a b && prefixb p' s'
  | String _ _, EmptyString => false
  end.

(** [sub in s] on texts. *)
Fixpoint contains (sub s : string) : bool :=
  prefixb sub s ||
  match s with
  | EmptyString => false
  | String _ r => contains sub r
  end.

(** ** SHA-256, HMAC and base64 (hashlib, hmac, base64) *)

Module SHA256.

Definition mask : Z := 0xFFFFFFFF.
Definition add (x y : Z) : Z := Z.land (x + y) mask.
Definition rotr (n x : Z) : Z :=
  Z.lor (Z.shiftr x n) (Z.land (Z.shiftl x (32 - n)) mask).
Definition xor3 (x y z : Z) : Z := Z.lxor (Z.lxor x y) z.

Definition Ch (x y z : Z) : Z :=
  Z.lxor (Z.land x y) (Z.land (Z.lxor x mask) z).
Definition Maj (x y z : Z) : Z :=
  xor3 (Z.land x y) (Z.land x z) (Z.land y z).
Definition Sig0 (x : Z) : Z := xor3 (rotr 2 x) (rotr 13 x) (rotr 22 x).
Definition Sig1 (x : Z) : Z := xor3 (rotr 6 x) (rotr 11 x) (rotr 25 x).
Definition sig0 (x : Z) : Z := xor3 (rotr 7 x) (rotr 18 x) (Z.shiftr x 3).
Definition sig1 (x : Z) : Z := xor3 (rotr 17 x) (rotr 19 x) (Z.shiftr x 10).

Definition is_prime (n : Z) : bool :=
  forallb (fun d => negb (n mod Z.of_nat d =? 0)) (seq 2 (Z.to_nat n - 2)).

(** The primes up to 311: there are 64 of them. *)
Definition primes : list Z :=
  Eval vm_compute in filter is_prime (map Z.of_nat (seq 2 310)).

(** The integer cube root, one bit at a time from bit [k - 1] down. *)
Fixpoint cbrt_bits (k : nat) (n r : Z) : Z :=
  match k with
  | O => r
  | S j =>
      let c := r + Z.shiftl 1 (Z.of_nat j) in
      cbrt_bits j n (if c * c * c <=? n then c else r)
  end.

(** The round constants: the first 32 bits of the fractional parts of the
    cube roots of the first 64 primes. *)
Definition K : list Z :=
  Eval vm_compute in
    map (fun p => Z.land (cbrt_bits 40 (Z.shiftl p 96) 0) mask) primes.

(** The initial hash value: the first 32 bits of the fractional parts of
    the square roots of the first 8 primes. *)
Definition H0 : list Z :=
  Eval vm_compute in
    map (fun p => Z.land (Z.sqrt (Z.shiftl p 64)) mask) (firstn 8 primes).

(** Big-endian bytes of a word of [n] bytes. *)
Fixpoint be_bytes (n : nat) (x : Z) : list Z :=
  match n with
  | O => []
  | S m => Z.land (Z.shiftr x (8 * Z.of_nat m)) 255 :: be_bytes m x
  end.

Definition pad (msg : list Z) : list Z :=
  let len := Z.of_nat (List.length msg) in
  let zeros := Z.to_nat ((55 - len) mod 64) in
  msg ++ [128] ++ repeat 0 zeros ++ be_bytes 8 (8 * len).

(** The 32-bit big-endian words of a byte sequence. *)
Fixpoint words (fuel : nat) (l : list Z) : list Z :=
  match fuel, l with
  | S f, a :: b :: c :: d :: r =>
      (Z.shiftl a 24 + Z.shiftl b 16 + Z.shiftl c 8 + d) :: words f r
  | _, _ => []
  end.

(** The message schedule, most recent word first. *)
Fixpoint schedule (n : nat) (rev_w : list Z) : list Z :=
  match n with
  | O => rev_w
  | S m =>
      let w :=
        add (add (sig1 (nth 1 rev_w 0)) (nth 6 rev_w 0))
            (add (sig0 (nth 14 rev_w 0)) (nth 15 rev_w 0)) in
      schedule m (w :: rev_w)
  end.

Record regs := Regs { ra : Z; rb : Z; rc : Z; rd : Z;
                      re : Z; rf : Z; rg : Z; rh : Z }.

Definition round (s : regs) (kw : Z * Z) : regs :=
  let (k, w) := kw in
  let t1 := add (add (add (rh s) (Sig1 (re s))) (Ch (re s) (rf s) (rg s)))
                (add k w) in
  let t2 := add (Sig0 (ra s)) (Maj (ra s) (rb s) (rc s)) in
  Regs (add t1 t2) (ra s) (rb s) (rc s) (add (rd s) t1) (re s) (rf s) (rg s).

Definition regs_of (h : list Z) : regs :=
  Regs (nth 0 h 0) (nth 1 h 0) (nth 2 h 0) (nth 3 h 0)
       (nth 4 h 0) (nth 5 h 0) (nth 6 h 0) (nth 7 h 0).

Definition list_of (s : regs) : list Z :=
  [ra s; rb s; rc s; rd s; re s; rf s; rg s; rh s].

Definition compress (h : list Z) (block : list Z) : list Z :=
  let w := rev (schedule 48 (rev block)) in
  let s := fold_left round (combine K w) (regs_of h) in
  map (fun p => add (fst p) (snd p)) (combine h (list_of s)).

Fixpoint blocks (fuel : nat) (h : list Z) (ws : list Z) : list Z :=
  match fuel with
  | O => h
  | S f =>
      match ws with
      | [] => h
      | _ => blocks f (compress h (firstn 16 ws)) (skipn 16 ws)
      end
  end.

Definition digest (msg : list Z) : list Z :=
  let p := pad msg in
  let ws := words (List.length p) p in
  flat_map (be_bytes 4) (blocks (List.length ws) H0 ws).

End SHA256.

(** [hmac.new(key, msg, hashlib.sha256).digest()] *)
Definition hmac_sha256 (key msg : list Z) : list Z :=
  let k0 := if (64 <? Z.of_nat (List.length key)) then SHA256.digest key else key in
  let k := k0 ++ repeat 0 (64 - List.length k0)%nat in
  let ipad := map (Z.lxor 0x36) k in
  let opad := map (Z.lxor 0x5c) k in
  SHA256.digest (opad ++ SHA256.digest (ipad ++ msg)).

Module Base64.

Definition alphabet : string :=
  "ABCDEFGHIJKLMNOPQRSTUVWXYZabcdefghijklmnopqrstuvwxyz0123456789+/".

Definition sym (z : Z) : ascii :=
  match String.get (Z.to_nat z) alphabet with
  | Some c => c
  | None => "="%char
  end.

Fixpoint b64 (fuel : nat) (l : list Z) : string :=
  match fuel with
  | O => ""
  | S f =>
      match l with
      | [] => ""
      | [a] =>
          String (sym (Z.shiftr a 2))
            (String (sym (Z.shiftl (Z.land a 3) 4)) "==")
      | [a; b] =>
          String (sym (Z.shiftr a 2))
            (String (sym (Z.lor (Z.shiftl (Z.land a 3) 4) (Z.shiftr b 4)))
               (String (sym (Z.shiftl (Z.land b 15) 2)) "="))
      | a :: b :: c :: r =>
          String (sym (Z.shiftr a 2))
            (String (sym (Z.lor (Z.shiftl (Z.land a 3) 4) (Z.shiftr b 4)))
               (String (sym (Z.lor (Z.shiftl (Z.land b 15) 2) (Z.shiftr c 6)))
                  (String (sym (Z.land c 63)) (b64 f r))))
      end
  end.

(** [base64.b64encode(data).decode()] *)
Definition b64encode (l : list Z) : string := b64 (List.length l) l.

End Base64.

(** ** The clock reading and its rendering (datetime, strftime) *)

Record datetime := DateTime
  { year : Z; month : Z; day : Z;
    hour : Z; minute : Z; second : Z; microsecond : Z }.

Definition is_leap (y : Z) : bool :=
  (y mod 4 =? 0) && (negb (y mod 100 =? 0) || (y mod 400 =? 0)).

Definition days_before_year (y : Z) : Z :=
  let y1 := y - 1 in y1 * 365 + y1 / 4 - y1 / 100 + y1 / 400.

Definition days_before_month (y m : Z) : Z :=
  nth (Z.to_nat (m - 1)) [0; 31; 59; 90; 120; 151; 181; 212; 243; 273; 304; 334] 0
  + (if (2 <? m) && is_leap y then 1 else 0).

Definition toordinal (d : datetime) : Z :=
  days_before_year (year d) + days_before_month (year d) (month d) + day d.

(** Monday is 0. *)
Definition weekday (d : datetime) : Z := (toordinal d + 6) mod 7.

Definition day_abbr : list string :=
  ["Mon"; "Tue"; "Wed"; "Thu"; "Fri"; "Sat"; "Sun"].

Definition month_abbr : list string :=
  ["Jan"; "Feb"; "Mar"; "Apr"; "May"; "Jun";
   "Jul"; "Aug"; "Sep"; "Oct"; "Nov"; "Dec"].

(** [d.strftime("%a, %d %b %Y %H:%M:%S GMT")] in the C locale. *)
Definition strftime (d : datetime) : string :=
  nth (Z.to_nat (weekday d)) day_abbr "" +++ ", " +++ dec2 (day d) +++ " "
  +++ nth (Z.to_nat (month d - 1)) month_abbr "" +++ " " +++ dec (year d) +++ " "
  +++ dec2 (hour d) +++ ":" +++ dec2 (minute d) +++ ":" +++ dec2 (second d)
  +++ " GMT".

(** The readings a clock can return. *)
Definition valid_datetime (d : datetime) : Prop :=
  1000 <= year d <= 9999 /\ 1 <= month d <= 12 /\ 1 <= day d <= 31 /\
  0 <= hour d <= 23 /\ 0 <= minute d <= 59 /\ 0 <= second d <= 59 /\
  0 <= microsecond d <= 999999.

Definition dq : string := String "034"%char "".
Definition nl : string := String "010"%char "".

(** ** The signer *)

Definition dict (A : Type) : Type := list (string * A).

Fixpoint dict_get {A : Type} (k : string) (d : dict A) : option A :=
  match d with
  | [] => None
  | (k', v) :: r => if String.eqb k k' then Some v else dict_get k r
  end.

(** [d[k] = v]: an existing key keeps its place. *)
Fixpoint dict_set {A : Type} (k : string) (v : A) (d : dict A) : dict A :=
  match d with
  | [] => [(k, v)]
  | (k', v') :: r =>
      if String.eqb k k' then (k, v) :: r else (k', v') :: dict_set k v r
  end.

Definition request_line (http_method url_path : string) : string :=
  http_method +++ " " +++ url_path +++ " HTTP/1.1".

Definition string_to_sign (date_string http_method url_path : string) : string :=
  "date: " +++ date_string +++ nl +++ request_line http_method url_path.

Definition signature (client_secret to_sign : string) : string :=
  Base64.b64encode (hmac_sha256 (encode client_secret) (encode to_sign)).

(** [generate_auth_headers]; [now] is the reading [datetime.utcnow()]
    returns when the function runs. *)
Definition generate_auth_headers (now : datetime)
    (http_method url_path client_id client_secret : string) : dict string :=
  let date_string := strftime now in
  let sig := signature client_secret
               (string_to_sign date_string http_method url_path) in
  [ ("Authorization",
     "hmac username=" +++ dq +++ client_id +++ dq
     +++ ", algorithm=" +++ dq +++ "hmac-sha256" +++ dq +++ ", "
     +++ "headers=" +++ dq +++ "date request-line" +++ dq
     +++ ", signature=" +++ dq +++ sig +++ dq);
    ("Date", date_string);
    ("Content-Type", "application/json") ].

(** ** Python values: spreadsheet cells, JSON documents, payloads *)

#[local] Set Warnings "-register-all".

Inductive pyval : Type :=
| PNone
| PBool (b : bool)
| PInt (z : Z)
| PFloat (repr : string)
| PStr (s : string)
| PList (l : list pyval)
| PDict (d : list (string * pyval)).

(** [bool(v)] *)
Definition truthy (v : pyval) : bool :=
  match v with
  | PNone => false
  | PBool b => b
  | PInt z => negb (z =? 0)
  | PFloat r => negb (String.eqb r "0.0" || String.eqb r "-0.0")
  | PStr s => negb (String.eqb s "")
  | PList l => match l with [] => false | _ => true end
  | PDict d => match d with [] => false | _ => true end
  end.

(** Truth value of a [str | None]. *)
Definition truthy_opt (o : option string) : bool :=
  match o with
  | Some s => negb (String.eqb s "")
  | None => false
  end.

Definition type_name (v : pyval) : string :=
  match v with
  | PNone => "NoneType"
  | PBool _ => "bool"
  | PInt _ => "int"
  | PFloat _ => "float"
  | PStr _ => "str"
  | PList _ => "list"
  | PDict _ => "dict"
  end.

Definition backslash : string := String "092"%char "".

Fixpoint has_char (c : ascii) (s : string) : bool :=
  match s with
  | EmptyString => false
  | String a r => Ascii.eqb a c || has_char c r
  end.

Definition printable (z : Z) : bool :=
  (32 <=? z) && negb (z =? 127) && negb ((128 <=? z) && (z <=? 160))
  && negb (z =? 173).

Fixpoint repr_chars (quote : ascii) (s : string) : string :=
  match s with
  | EmptyString => ""
  | String c r =>
      let z := code c in
      (if Ascii.eqb c quote || (z =? 92) then backslash +++ String c ""
       else if z =? 9 then backslash +++ "t"
       else if z =? 10 then backslash +++ "n"
       else if z =? 13 then backslash +++ "r"
       else if printable z then String c ""
       else backslash +++ "x" +++ hex2 z)
      +++ repr_chars quote r
  end.

(** [repr(s)] of a text: double quotes only when the text has a single
    quote and no double quote. *)
Definition repr_str (s : string) : string :=
  let quote := if has_char "039"%char s && negb (has_char "034"%char s)
               then "034"%char else "039"%char in
  String quote (repr_chars quote s +++ String quote "").

Fixpoint py_repr (v : pyval) : string :=
  match v with
  | PNone => "None"
  | PBool b => if b then "True" else "False"
  | PInt z => dec z
  | PFloat r => r
  | PStr s => repr_str s
  | PList l => "[" +++ join ", " (map py_repr l) +++ "]"
  | PDict d =>
      "{" +++ join ", "
                (map (fun kv => repr_str (fst kv) +++ ": " +++ py_repr (snd kv)) d)
      +++ "}"
  end.

(** [str(v)], also what an f-string field prints. *)
Definition py_str (v : pyval) : string :=
  match v with
  | PStr s => s
  | _ => py_repr v
  end.

Definition is_space (z : Z) : bool :=
  ((9 <=? z) && (z <=? 13)) || ((28 <=? z) && (z <=? 32))
  || (z =? 133) || (z =? 160).

Fixpoint lstrip (s : string) : string :=
  match s with
  | EmptyString => ""
  | String c r => if is_space (code c) then lstrip r else s
  end.

Fixpoint rstrip (s : string) : string :=
  match s with
  | EmptyString => ""
  | String c r =>
      match rstrip r with
      | EmptyString => if is_space (code c) then "" else String c ""
      | r' => String c r'
      end
  end.

(** [s.strip()] *)
Definition strip (s : string) : string := rstrip (lstrip s).

(** *** json.dumps with its default settings *)

Fixpoint json_chars (s : string) : string :=
  match s with
  | EmptyString => ""
  | String c r =>
      let z := code c in
      (if (z =? 34) || (z =? 92) then backslash +++ String c ""
       else if z =? 10 then backslash +++ "n"
       else if z =? 13 then backslash +++ "r"
       else if z =? 9 then backslash +++ "t"
       else if z =? 8 then backslash +++ "b"
       else if z =? 12 then backslash +++ "f"
       else if (32 <=? z) && (z <=? 126) then String c ""
       else backslash +++ "u00" +++ hex2 z)
      +++ json_chars r
  end.

Definition json_str (s : string) : string := dq +++ json_chars s +++ dq.

Definition json_float (r : string) : string :=
  if String.eqb r "nan" then "NaN"
  else if String.eqb r "inf" then "Infinity"
  else if String.eqb r "-inf" then "-Infinity"
  else r.

Fixpoint json_dumps (v : pyval) : string :=
  match v with
  | PNone => "null"
  | PBool b => if b then "true" else "false"
  | PInt z => dec z
  | PFloat r => json_float r
  | PStr s => json_str s
  | PList l => "[" +++ join ", " (map json_dumps l) +++ "]"
  | PDict d =>
      "{" +++ join ", "
                (map (fun kv => json_str (fst kv) +++ ": " +++ json_dumps (snd kv)) d)
      +++ "}"
  end.

(** ** Effects: the history of a run, exceptions, the world *)

(** What a call that may raise gives: a value, or an [Exception] of which
    the program only ever reads [str(e)]. *)
Inductive outcome (A : Type) : Type :=
| Ok (a : A)
| Raised (text : string).

Arguments Ok {A} a.
Arguments Raised {A} text.

(** A [requests.Response]: the three things the program reads from it.
    [resp_json] is what [r.json()] returns or raises. *)
Record response := Response
  { resp_status_code : Z; resp_text : string; resp_json : outcome pyval }.

Record request := Request
  { req_method : string;
    req_url : string;
    req_json : option pyval;
    req_headers : dict string;
    req_timeout : Z }.

Inductive event : Type :=
| Http (req : request) (res : outcome response)
| Sleep (seconds : Q)
| StatusWrite (msg : string)
| StatusDone
| ProgressBar (value : Q)
| StError (msg : string)
| StInfo.

(** Effects so far, oldest first. *)
Definition history : Type := list event.

(** The clock and the remote API answer from the history of the run. *)
Record world := World
  { utcnow : history -> datetime;
    transport : history -> request -> outcome response }.

(** State and exceptions: a raise keeps the state reached. *)
Definition M (S A : Type) : Type := S -> outcome A * S.

Definition ret {S A : Type} (a : A) : M S A := fun s => (Ok a, s).

Definition bind {S A B : Type} (m : M S A) (k : A -> M S B) : M S B :=
  fun s =>
    match m s with
    | (Ok a, s') => k a s'
    | (Raised e, s') => (Raised e, s')
    end.

Notation "x <- m ;; k" := (bind m (fun x => k))
  (at level 61, m at next level, right associativity).
Notation "m ;; k" := (bind m (fun _ => k))
  (at level 61, right associativity).

Definition lift {S A : Type} (o : outcome A) : M S A := fun s => (o, s).

(** [try: body / except Exception as e: handler(str(e))] *)
Definition try_except {S A : Type} (body : M S A) (handler : string -> M S A)
  : M S A :=
  fun s =>
    match body s with
    | (Raised e, s') => handler e s'
    | r => r
    end.

Definition emit (e : event) : M history unit := fun h => (Ok tt, h ++ [e]).

Definition clock (w : world) : M history datetime := fun h => (Ok (utcnow w h), h).

Definition http (w : world) (req : request) : M history response :=
  fun h => let res := transport w h req in (res, h ++ [Http req res]).

(** [requests.post(url, json=, headers=, timeout=)] *)
Definition requests_post (w : world) (url : string) (json : pyval)
    (headers : dict string) (timeout : Z) : M history response :=
  http w (Request "POST" url (Some json) headers timeout).

(** [requests.get(url, headers=, timeout=)] *)
Definition requests_get (w : world) (url : string)
    (headers : dict string) (timeout : Z) : M history response :=
  http w (Request "GET" url None headers timeout).

Definition time_sleep (seconds : Q) : M history unit := emit (Sleep seconds).

(** A function body with one mutable local of type [L]. *)
Definition io {L A : Type} (m : M history A) : M (L * history) A :=
  fun s => let (o, h') := m (snd s) in (o, (fst s, h')).

Definition update {L : Type} (f : L -> L) : M (L * history) unit :=
  fun s => (Ok tt, (f (fst s), snd s)).

(** Runs the body from the local's first value; [return local]. *)
Definition returning {L : Type} (init : L) (body : M (L * history) unit)
  : M history L :=
  fun h =>
    match body (init, h) with
    | (Ok _, (l, h')) => (Ok l, h')
    | (Raised e, (_, h')) => (Raised e, h')
    end.

(** [v.get(key, default)]: only a dict has the method. *)
Definition py_get (v : pyval) (key : string) (default : pyval) : outcome pyval :=
  match v with
  | PDict d =>
      Ok (match dict_get key d with Some x => x | None => default end)
  | _ => Raised ("'" +++ type_name v +++ "' object has no attribute 'get'")
  end.

(** [max(0, x)] *)
Definition py_max0 (x : Q) : Q := if Qle_bool x 0 then 0%Q else x.

(** [i / total] on integers. *)
Definition py_div (i total : Z) : outcome Q :=
  if total =? 0 then Raised "division by zero"
  else Ok (inject_Z i / inject_Z total)%Q.

(** ** The pipeline *)

Definition API_BASE : string := "https://api.mekari.com".

(** The result dict of [send_whatsapp]; [None] is [None]. *)
Record result := Result
  { to_number : string;
    to_name : string;
    status_code : option Z;
    broadcast_id : pyval;
    send_response : option string;
    log_status_code : option Z;
    log_response : option string;
    error : option string }.

Definition set_status_code (v : option Z) (r : result) : result :=
  Result (to_number r) (to_name r) v (broadcast_id r) (send_response r)
         (log_status_code r) (log_response r) (error r).
Definition set_broadcast_id (v : pyval) (r : result) : result :=
  Result (to_number r) (to_name r) (status_code r) v (send_response r)
         (log_status_code r) (log_response r) (error r).
Definition set_send_response (v : option string) (r : result) : result :=
  Result (to_number r) (to_name r) (status_code r) (broadcast_id r) v
         (log_status_code r) (log_response r) (error r).
Definition set_log_status_code (v : option Z) (r : result) : result :=
  Result (to_number r) (to_name r) (status_code r) (broadcast_id r)
         (send_response r) v (log_response r) (error r).
Definition set_log_response (v : option string) (r : result) : result :=
  Result (to_number r) (to_name r) (status_code r) (broadcast_id r)
         (send_response r) (log_status_code r) v (error r).
Definition set_error (v : option string) (r : result) : result :=
  Result (to_number r) (to_name r) (status_code r) (broadcast_id r)
         (send_response r) (log_status_code r) (log_response r) v.

(** [row.get(key, "")] *)
Definition row_get (key : string) (row : dict pyval) : pyval :=
  match dict_get key row with
  | Some v => v
  | None => PStr ""
  end.

(** [status in (200, 201, 202)] *)
Definition success_status (status : Z) : bool :=
  (status =? 200) || (status =? 201) || (status =? 202).

(** [x or default] on a [str | None]. *)
Definition py_or (x : option string) (default : string) : string :=
  match x with
  | Some s => if String.eqb s "" then default else s
  | None => default
  end.

(** The [header] entry of [parameters], lines 93-99. *)
Definition header_block (image_url : string) (image_filename : option string)
  : pyval :=
  PDict
    [ ("format", PStr "IMAGE");
      ("params",
       PList
         [ PDict [("key", PStr "url"); ("value", PStr image_url)];
           PDict [("key", PStr "filename");
                  ("value", PStr (py_or image_filename "banner.jpg"))] ]) ].

(** The payload of lines 80-99. *)
Definition build_payload (to_number to_name template_id channel_id : string)
    (image_url image_filename : option string) : dict pyval :=
  let parameters : dict pyval := [("body", PList [])] in
  let parameters :=
    match image_url with
    | Some url =>
        if truthy_opt image_url
        then dict_set "header" (header_block url image_filename) parameters
        else parameters
    | None => parameters
    end in
  [ ("to_number", PStr to_number);
    ("to_name", PStr to_name);
    ("message_template_id", PStr template_id);
    ("channel_integration_id", PStr channel_id);
    ("language", PDict [("code", PStr "id")]);
    ("parameters", PDict parameters) ].

Definition post_url_path : string := "/qontak/chat/v1/broadcasts/whatsapp/direct".

Definition get_url_path (broadcast_id : pyval) : string :=
  "/qontak/chat/v1/broadcasts/" +++ py_str broadcast_id +++ "/whatsapp/log".

(** Lines 118-119: [r_post.json().get("data", {}).get("id")]. *)
Definition broadcast_id_of (r_post : response) : outcome pyval :=
  match resp_json r_post with
  | Ok data =>
      match py_get data "data" (PDict []) with
      | Ok inner => py_get inner "id" PNone
      | Raised e => Raised e
      end
  | Raised e => Raised e
  end.

(** The body of the [try] block, lines 113-138. *)
Definition send_and_log (w : world) (payload : dict pyval)
    (headers_post : dict string) (client_id client_secret : string)
    (sleep_after_seconds : Q) : M (result * history) unit :=
  r_post <- io (requests_post w (API_BASE +++ post_url_path) (PDict payload)
                  headers_post 60) ;;
  update (set_status_code (Some (resp_status_code r_post))) ;;
  update (set_send_response (Some (resp_text r_post))) ;;
  if success_status (resp_status_code r_post) then
    broadcast_id <- lift (broadcast_id_of r_post) ;;
    update (set_broadcast_id broadcast_id) ;;
    if truthy broadcast_id then
      io (time_sleep (py_max0 sleep_after_seconds)) ;;
      now <- io (clock w) ;;
      let headers_get :=
        generate_auth_headers now "GET" (get_url_path broadcast_id)
          client_id client_secret in
      r_get <- io (requests_get w (API_BASE +++ get_url_path broadcast_id)
                     headers_get 60) ;;
      update (set_log_status_code (Some (resp_status_code r_get))) ;;
      update (set_log_response (Some (resp_text r_get)))
    else ret tt
  else
    err <- try_except (lift (resp_json r_post))
             (fun _ => ret (PDict [("raw", PStr (resp_text r_post))])) ;;
    update (set_error (Some (json_dumps err))).

Definition send_whatsapp (w : world) (row : dict pyval)
    (template_id channel_id : string) (image_url image_filename : option string)
    (client_id client_secret : string) (sleep_after_seconds : Q)
  : M history result :=
  let to_number := strip (py_str (row_get "to_number" row)) in
  let to_name := strip (py_str (row_get "to_name" row)) in
  now <- clock w ;;
  let headers_post :=
    generate_auth_headers now "POST" post_url_path client_id client_secret in
  let payload :=
    build_payload to_number to_name template_id channel_id
      image_url image_filename in
  returning
    (Result to_number to_name None PNone None None None None)
    (try_except
       (send_and_log w payload headers_post client_id client_secret
          sleep_after_seconds)
       (fun e => update (set_error (Some e)))).

(** ** The run *)

Record DataFrame := Frame
  { columns : list string; cells : list (list pyval) }.

(** [df.to_dict(orient="records")]: one dict per row, keyed by column. *)
Definition to_dict_records (df : DataFrame) : list (dict pyval) :=
  map (fun row =>
         fold_left (fun d kv => dict_set (fst kv) (snd kv) d)
           (combine (columns df) row) [])
      (cells df).

(** [df.head(n)] for the positive [n] the run passes. *)
Definition head (n : Z) (df : DataFrame) : DataFrame :=
  Frame (columns df) (firstn (Z.to_nat n) (cells df)).

Definition len (df : DataFrame) : Z := Z.of_nat (List.length (cells df)).

Fixpoint mem (x : string) (l : list string) : bool :=
  match l with
  | [] => false
  | y :: r => String.eqb x y || mem x r
  end.

(** The set [{"to_number", "to_name"}] in the order it is iterated, which
    the interpreter's hash seed fixes for a run. *)
Definition required (number_first : bool) : list string :=
  if number_first then ["to_number"; "to_name"] else ["to_name"; "to_number"].

Definition validate_dataframe (number_first : bool) (df : DataFrame)
  : bool * list string :=
  let missing :=
    filter (fun c => negb (mem c (columns df))) (required number_first) in
  (Nat.eqb (List.length missing) 0, missing).

Record config := Config
  { client_id : string;
    client_secret : string;
    template_id : string;
    channel_id : string;
    image_url : string;
    image_filename : string;
    sleep_after_seconds : Q;
    max_rows : Z }.

Definition nonempty (s : string) : bool := negb (String.eqb s "").

(** [x.strip() if x else None] *)
Definition strip_or_none (x : string) : option string :=
  if nonempty x then Some (strip x) else None.

(** The loop of lines 247-260, from position [i]. *)
Fixpoint batch_loop (w : world) (c : config) (total : Z) (i : Z)
    (rows : list (dict pyval)) (results : list result)
  : M history (list result) :=
  match rows with
  | [] => ret results
  | row :: rest =>
      emit (StatusWrite
              ("Sending to **" +++ py_str (row_get "to_name" row) +++ "** ("
               +++ py_str (row_get "to_number" row) +++ ") [" +++ dec i +++ "/"
               +++ dec total +++ "] ...")) ;;
      result <- send_whatsapp w row (template_id c) (channel_id c)
                  (strip_or_none (image_url c))
                  (strip_or_none (image_filename c))
                  (client_id c) (client_secret c) (sleep_after_seconds c) ;;
      fraction <- lift (py_div i total) ;;
      emit (ProgressBar fraction) ;;
      batch_loop w c total (i + 1) rest (results ++ [result])
  end.

(** Lines 242-260: the batch over a frame. *)
Definition run_batch (w : world) (c : config) (df : DataFrame)
  : M history (list result) :=
  emit (ProgressBar 0) ;;
  batch_loop w c (len df) 1 (to_dict_records df) [].

(** The frame the batch runs over, lines 234-235. *)
Definition capped (c : config) (df : DataFrame) : DataFrame :=
  if negb (max_rows c =? 0) && (0 <? max_rows c)
  then head (max_rows c) df else df.

(** How the [run_clicked] block ends: [st.stop()], or the results. *)
Inductive run : Type :=
| Stopped
| Finished (results : list result).

Definition run_clicked (w : world) (number_first : bool) (c : config)
    (df : DataFrame) : M history run :=
  if negb (nonempty (client_id c) && nonempty (client_secret c)
           && nonempty (template_id c) && nonempty (channel_id c))
  then
    emit (StError
            "Client/Template/Channel credentials are missing. Provide them in the sidebar.") ;;
    ret Stopped
  else
    let (ok, missing) := validate_dataframe number_first df in
    if negb ok then
      emit (StError ("Missing required columns: " +++ join ", " missing)) ;;
      ret Stopped
    else
      let df := capped c df in
      emit StInfo ;;
      results <- run_batch w c df ;;
      emit StatusDone ;;
      ret (Finished results).

(** ** Worlds for the scenarios *)

Module Scenario.

Definition noon : datetime := DateTime 2024 5 17 12 0 0 250000.

(** A [201] whose body carries [data.id]. *)
Definition created (id : string) : response :=
  Response 201
    ("{" +++ dq +++ "data" +++ dq +++ ":{" +++ dq +++ "id" +++ dq +++ ":"
     +++ dq +++ id +++ dq +++ "}}")
    (Ok (PDict [("data", PDict [("id", PStr id)])])).

(** The [422] of the specification's scenario. *)
Definition rejected : response :=
  Response 422
    ("{" +++ dq +++ "error" +++ dq +++ ":" +++ dq +++ "invalid number" +++ dq
     +++ "}")
    (Ok (PDict [("error", PStr "invalid number")])).

(** A gateway answering in plain text. *)
Definition bad_gateway : response :=
  Response 502 "Bad Gateway"
    (Raised "Expecting value: line 1 column 1 (char 0)").

(** A success status over a body that is no JSON. *)
Definition accepted_html : response :=
  Response 202 "<html>accepted</html>"
    (Raised "Expecting value: line 1 column 1 (char 0)").

Definition log_page : response :=
  Response 200
    ("{" +++ dq +++ "status" +++ dq +++ ":" +++ dq +++ "success" +++ dq +++ "}")
    (Ok (PDict [("status", PStr "success")])).

Definition is_post (req : request) : bool := String.eqb (req_method req) "POST".

Definition addressee (req : request) : string :=
  match req_json req with
  | Some (PDict d) =>
      match dict_get "to_number" d with
      | Some (PStr s) => s
      | _ => ""
      end
  | _ => ""
  end.

(** Every send answers [post]; every log fetch answers [get]. *)
Definition fixed (post get : outcome response) : world :=
  World (fun _ => noon)
        (fun _ req => if is_post req then post else get).

(** As [fixed], except that sends to [number] answer [other]. *)
Definition fixed_but (number : string) (other post get : outcome response)
  : world :=
  World (fun _ => noon)
        (fun _ req =>
           if is_post req
           then if String.eqb (addressee req) number then other else post
           else get).

Definition cfg (delay : Q) : config :=
  Config "client" "secret" "template" "channel"
         "https://example.org/banner.jpg" "banner.jpg" delay 0.

Definition ani : dict pyval := [("to_number", PInt 628111); ("to_name", PStr "Ani")].

Definition budi : dict pyval :=
  [("to_number", PStr " 628222 "); ("to_name", PStr "Budi")].

Definition three : DataFrame :=
  Frame ["to_number"; "to_name"]
        [ [PInt 628111; PStr "Ani"];
          [PStr " 628222 "; PStr "Budi"];
          [PInt 628333; PStr "Citra"] ].

(** The batch of the specification: the second send is rejected. *)
Definition one_rejected : world :=
  fixed_but "628222" (Ok rejected) (Ok (created "bc_123")) (Ok log_page).

(** Sends succeed, log fetches time out. *)
Definition log_timeout : world :=
  fixed (Ok (created "bc_123")) (Raised "Read timed out.").

(** Sends succeed and so do log fetches. *)
Definition all_well : world :=
  fixed (Ok (created "bc_123")) (Ok log_page).

(** A sheet without the [to_number] column. *)
Definition no_number : DataFrame :=
  Frame ["phone"; "to_name"] [[PInt 628111; PStr "Ani"]].

End Scenario.

(** ** The two requests of a recipient, as the pipeline builds them *)

(** The request [send_whatsapp] posts for [row] when the history is [h]. *)
Definition post_request (w : world) (row : dict pyval)
    (template_id channel_id : string) (image_url image_filename : option string)
    (cid secret : string) (h : history) : request :=
  Request "POST" (API_BASE +++ post_url_path)
    (Some (PDict (build_payload
                    (strip (py_str (row_get "to_number" row)))
                    (strip (py_str (row_get "to_name" row)))
                    template_id channel_id image_url image_filename)))
    (generate_auth_headers (utcnow w h) "POST" post_url_path cid secret)
    60.

(** The log fetch for [id] when the history is [h]. *)
Definition log_request (w : world) (cid secret : string) (id : pyval)
    (h : history) : request :=
  Request "GET" (API_BASE +++ get_url_path id) None
    (generate_auth_headers (utcnow w h) "GET" (get_url_path id) cid secret)
    60.

(** The result dict before the [try] block. *)
Definition fresh_result (row : dict pyval) : result :=
  Result (strip (py_str (row_get "to_number" row)))
         (strip (py_str (row_get "to_name" row)))
         None PNone None None None None.

(** The log fetches among some events. *)
Fixpoint log_fetches (evs : history) : list request :=
  match evs with
  | [] => []
  | Http req _ :: r =>
      if String.eqb (req_method req) "GET" then req :: log_fetches r
      else log_fetches r
  | _ :: r => log_fetches r
  end.

(** The error detail as the specification words it: the body parsed as
    JSON when it parses, otherwise the raw text. *)
Definition spec_error_detail (rp : response) : string :=
  match resp_json rp with
  | Ok j => json_dumps j
  | Raised _ => resp_text rp
  end.

(** The error detail of lines 134-138. *)
Definition error_detail (rp : response) : string :=
  json_dumps
    match resp_json rp with
    | Ok j => j
    | Raised _ => PDict [("raw", PStr (resp_text rp))]
    end.

(** The diagnostics ([st.error]) among some events. *)
Fixpoint diagnostics (evs : history) : list string :=
  match evs with
  | [] => []
  | StError msg :: r => msg :: diagnostics r
  | _ :: r => diagnostics r
  end.

(** The requests among some events. *)
Fixpoint requests (evs : history) : list request :=
  match evs with
  | [] => []
  | Http req _ :: r => req :: requests r
  | _ :: r => requests r
  end.

(** The recipient a row stands for, as [send_whatsapp] reads it. *)
Definition recipient_of (row : dict pyval) : string * string :=
  (strip (py_str (row_get "to_number" row)),
   strip (py_str (row_get "to_name" row))).

Definition recipient_in (r : result) : string * string :=
  (to_number r, to_name r).

Definition is_some {A : Type} (o : option A) : bool :=
  match o with
  | Some _ => true
  | None => false
  end.

(** The checks of lines 225-232 taken together. *)
Definition preconditions (c : config) (df : DataFrame) : bool :=
  nonempty (client_id c) && nonempty (client_secret c)
  && nonempty (template_id c) && nonempty (channel_id c)
  && mem "to_number" (columns df) && mem "to_name" (columns df).

(** ** The signer as the specification words it *)

(** The canonical string: the line [date: <date>], then the line
    [<METHOD> <path> HTTP/1.1]. *)
Definition spec_canonical (date method path : string) : string :=
  "date: " +++ date +++ nl +++ method +++ " " +++ path +++ " HTTP/1.1".

(** Base64 of the HMAC-SHA256 of the canonical string, keyed by the secret. *)
Definition spec_signature (secret date method path : string) : string :=
  Base64.b64encode
    (hmac_sha256 (encode secret) (encode (spec_canonical date method path))).

Definition spec_authorization (username sig : string) : string :=
  "hmac username=" +++ dq +++ username +++ dq +++ ", algorithm=" +++ dq
  +++ "hmac-sha256" +++ dq +++ ", headers=" +++ dq +++ "date request-line"
  +++ dq +++ ", signature=" +++ dq +++ sig +++ dq.

(** *** The shape of an RFC 1123 date: [Day, DD Mon YYYY HH:MM:SS GMT] *)

Definition is_digit (c : ascii) : bool := (48 <=? code c) && (code c <=? 57).

(** Removes the literal [p] from the front of [s]. *)
Fixpoint eat (p s : string) : option string :=
  match p, s with
  | EmptyString, _ => Some s
  | String a p', String b s' => if Ascii.eqb a b then eat p' s' else None
  | String _ _, EmptyString => None
  end.

Fixpoint eat_one_of (ps : list string) (s : string) : option string :=
  match ps with
  | [] => None
  | p :: r =>
      match eat p s with
      | Some s' => Some s'
      | None => eat_one_of r s
      end
  end.

Fixpoint eat_digits (n : nat) (s : string) : option string :=
  match n, s with
  | O, _ => Some s
  | S m, String c r => if is_digit c then eat_digits m r else None
  | S _, EmptyString => None
  end.

Definition and_then (o : option string) (f : string -> option string)
  : option string :=
  match o with
  | Some s => f s
  | None => None
  end.

Definition rfc1123 (s : string) : bool :=
  match
    and_then (and_then (and_then (and_then (and_then (and_then (and_then
    (and_then (and_then (and_then (and_then (and_then (and_then
      (eat_one_of day_abbr s)
      (eat ", ")) (eat_digits 2)) (eat " "))
      (eat_one_of month_abbr)) (eat " ")) (eat_digits 4)) (eat " "))
      (eat_digits 2)) (eat ":")) (eat_digits 2)) (eat ":")) (eat_digits 2))
      (eat " GMT")
  with
  | Some EmptyString => true
  | _ => false
  end.

(** A text of exactly [n] decimal digits. *)
Definition digits (n : nat) (s : string) : bool :=
  match eat_digits n s with
  | Some EmptyString => true
  | _ => false
  end.

(** * Further definitions: observations of a run and the page around it *)

From Stdlib Require DecimalPos DecimalZ.

(** The sends (POST requests) among some events. *)
Fixpoint sends (evs : history) : list request :=
  match evs with
  | [] => []
  | Http req _ :: r =>
      if String.eqb (req_method req) "POST" then req :: sends r else sends r
  | _ :: r => sends r
  end.

(** The waits among some events. *)
Fixpoint sleeps (evs : history) : list Q :=
  match evs with
  | [] => []
  | Sleep s :: r => s :: sleeps r
  | _ :: r => sleeps r
  end.

(** The values given to the progress bar. *)
Fixpoint progress_values (evs : history) : list Q :=
  match evs with
  | [] => []
  | ProgressBar v :: r => v :: progress_values r
  | _ :: r => progress_values r
  end.

(** The positions [i, i + 1, ...] of [n] rows, as [enumerate] counts them. *)
Fixpoint positions (i : Z) (n : nat) : list Z :=
  match n with
  | O => []
  | S m => i :: positions (i + 1) m
  end.

(** The payload [send_whatsapp] builds for a row under a configuration. *)
Definition payload_of (c : config) (row : dict pyval) : dict pyval :=
  build_payload (strip (py_str (row_get "to_number" row)))
    (strip (py_str (row_get "to_name" row))) (template_id c) (channel_id c)
    (strip_or_none (image_url c)) (strip_or_none (image_filename c)).

(** A result that carries a truthy broadcast identifier. *)
Definition with_id (r : result) : bool := truthy (broadcast_id r).

Definition is_dict (v : pyval) : bool :=
  match v with
  | PDict _ => true
  | _ => false
  end.

(** No character of the text is white space. *)
Fixpoint no_space (s : string) : bool :=
  match s with
  | EmptyString => true
  | String c r => negb (is_space (code c)) && no_space r
  end.

Fixpoint all_digits (s : string) : bool :=
  match s with
  | EmptyString => true
  | String c r => is_digit c && all_digits r
  end.

Definition starts_with_space (s : string) : bool :=
  match s with
  | EmptyString => false
  | String c _ => is_space (code c)
  end.

Fixpoint ends_with_space (s : string) : bool :=
  match s with
  | EmptyString => false
  | String c EmptyString => is_space (code c)
  | String _ r => ends_with_space r
  end.

(** How many rows the run sends to: [max_rows] when it is positive and
    smaller than the frame, all of them otherwise. *)
Definition rows_sent (c : config) (df : DataFrame) : nat :=
  if 0 <? max_rows c
  then Nat.min (Z.to_nat (max_rows c)) (List.length (cells df))
  else List.length (cells df).

(** ** The page around the run *)

(** What the page shows outside the run. *)
Inductive notice : Type :=
| Success (msg : string)
| Warning (msg : string)
| ErrorBox (msg : string)
| Preview (df : DataFrame).

(** [st.secrets]: the parsed secrets, or what reading them raises. *)
Definition secrets : Type := outcome (dict string).

(** [st.secrets.get(key, fallback)] *)
Definition secrets_get (store : secrets) (key fallback : string)
  : outcome string :=
  match store with
  | Ok d => Ok match dict_get key d with Some v => v | None => fallback end
  | Raised e => Raised e
  end.

(** [get_secret], lines 20-25. *)
Definition get_secret (store : secrets) (key fallback : string) : string :=
  match secrets_get store key fallback with
  | Ok v => v
  | Raised _ => fallback
  end.

(** The four text inputs of the sidebar. *)
Record credentials := Credentials
  { cred_client_id : string;
    cred_client_secret : string;
    cred_template_id : string;
    cred_channel_id : string }.

(** Lines 154-167: the credentials come from the secrets or from what
    the user typed. *)
Definition sidebar_credentials (store : secrets) (use_secrets : bool)
    (typed : credentials) : credentials * list notice :=
  if use_secrets then
    let cid := get_secret store "CLIENT_ID" "" in
    let sec := get_secret store "CLIENT_SECRET" "" in
    let tid := get_secret store "TEMPLATE_ID" "" in
    let chid := get_secret store "CHANNEL_ID" "" in
    (Credentials cid sec tid chid,
     if negb (nonempty cid && nonempty sec && nonempty tid && nonempty chid)
     then [Warning
             "Some secrets are missing. Provide them below or set them in app secrets."]
     else [])
  else (typed, []).

(** The configuration of a run from the sidebar: lines 172-174 fix the
    media, lines 192-193 give the delay and the cap. *)
Definition config_of (cr : credentials) (delay : Q) (cap : Z) : config :=
  Config (cred_client_id cr) (cred_client_secret cr) (cred_template_id cr)
    (cred_channel_id cr)
    "https://raw.githubusercontent.com/christian-buku/Telesales-hot-leads-submitted-form-and-not-created-payment-link/refs/heads/main/banner.jpg"
    "banner.jpg" delay cap.






(** [df.empty]: no column or no row. *)
Definition empty (df : DataFrame) : bool :=
  (List.length (columns df) =? 0)%nat || (List.length (cells df) =? 0)%nat.

(** Lines 213-219: the check and the preview of a loaded frame. *)
Definition preview (number_first : bool) (df : DataFrame) : list notice :=
  if negb (empty df) then
    let (ok, missing) := validate_dataframe number_first df in
    if negb ok
    then [ErrorBox ("Missing required columns: " +++ join ", " missing)]
    else [Preview (head 20 df)]
  else [].

(** Lines 213-274: the preview, the button (disabled on an empty frame)
    and, when it is clicked, the run.  [None] when no run starts. *)
Definition page (w : world) (number_first : bool) (c : config)
    (df : DataFrame) (click : bool) (h : history)
  : list notice * option (outcome run * history) :=
  let shown := preview number_first df in
  let clicked := click && negb (empty df) in
  (shown, if clicked then Some (run_clicked w number_first c df h) else None).

(** ** Answers and sheets for the edge cases *)

Module Edge.

(** A [200] whose [data.id] is the number 0. *)
Definition zero_id : response :=
  Response 200
    ("{" +++ dq +++ "data" +++ dq +++ ":{" +++ dq +++ "id" +++ dq +++ ":0}}")
    (Ok (PDict [("data", PDict [("id", PInt 0)])])).


(** A [202] over the empty object. *)
Definition empty_object : response := Response 202 "{}" (Ok (PDict [])).

(** A [200] over the empty list. *)
Definition empty_list : response := Response 200 "[]" (Ok (PList [])).

Definition answering (post : outcome response) : world :=
  Scenario.fixed post (Ok Scenario.log_page).

End Edge.

(** [int(s)] on a decimal text. *)
Definition py_int (s : string) : option Z :=
  option_map Z.of_int (NilZero.int_of_string s).

Definition credentials_missing : string :=
  "Client/Template/Channel credentials are missing. Provide them in the sidebar.".

(** The list after the words [Missing required columns: ] for a frame
    that lacks a required column. *)
Definition missing_list (number_first : bool) (df : DataFrame) : string :=
  match mem "to_number" (columns df), mem "to_name" (columns df) with
  | false, true => "to_number"
  | true, false => "to_name"
  | false, false =>
      if number_first then "to_number, to_name" else "to_name, to_number"
  | true, true => ""
  end.

(** The file name the header block names for a configuration. *)
Definition media_filename (c : config) : string :=
  if nonempty (strip (image_filename c)) then strip (image_filename c)
  else "banner.jpg".

(** * Checks of the library models against known values *)

Example sha256_constants :
  List.length SHA256.primes = 64%nat /\
  nth 0 SHA256.K 0 = 0x428a2f98 /\ nth 63 SHA256.K 0 = 0xc67178f2 /\
  nth 0 SHA256.H0 0 = 0x6a09e667 /\ nth 7 SHA256.H0 0 = 0x5be0cd19.
Proof. vm_compute. repeat split. Qed.

Example sha256_abc :
  hex (SHA256.digest (encode "abc")) =
  "ba7816bf8f01cfea414140de5dae2223b00361a396177a9cb410ff61f20015ad".
Proof. vm_compute. reflexivity. Qed.

Example sha256_empty :
  hex (SHA256.digest []) =
  "e3b0c44298fc1c149afbf4c8996fb92427ae41e4649b934ca495991b7852b855".
Proof. vm_compute. reflexivity. Qed.

Example sha256_two_blocks :
  hex (SHA256.digest
         (encode "abcdbcdecdefdefgefghfghighijhijkijkljklmklmnlmnomnopnopq")) =
  "248d6a61d20638b8e5c026930c3e6039a33ce45964ff2167f6ecedd419db06c1".
Proof. vm_compute. reflexivity. Qed.

Example hmac_rfc4231_case2 :
  hex (hmac_sha256 (encode "Jefe") (encode "what do ya want for nothing?")) =
  "5bdcc146bf60754e6a042426089575c75a003f089d2739839dec58b964ec3843".
Proof. vm_compute. reflexivity. Qed.

Example hmac_rfc4231_case6 :
  hex (hmac_sha256 (repeat 170 131)
         (encode "Test Using Larger Than Block-Size Key - Hash Key First")) =
  "60e431591ee0b67f0d8a26aacbf5b77f8e0bc6213728c5140546040f0ee37f54".
Proof. vm_compute. reflexivity. Qed.

Example b64_vectors :
  Base64.b64encode (encode "foobar") = "Zm9vYmFy" /\
  Base64.b64encode (encode "fooba") = "Zm9vYmE=" /\
  Base64.b64encode (encode "foob") = "Zm9vYg==".
Proof. vm_compute. repeat split. Qed.

Example strftime_rfc_example :
  strftime (DateTime 1994 11 6 8 49 37 0) = "Sun, 06 Nov 1994 08:49:37 GMT".
Proof. vm_compute. reflexivity. Qed.

Example signature_post_example :
  signature "secret"
    (string_to_sign (strftime (DateTime 1994 11 6 8 49 37 0)) "POST"
       "/qontak/chat/v1/broadcasts/whatsapp/direct")
  = "RVK/Cm7tnVvKPT3BZRKMpfYNWaAcEzxO3tt0das5b3s=".
Proof. vm_compute. reflexivity. Qed.

Example json_dumps_example :
  json_dumps
    (PDict [("a", PList [PInt 1; PStr (text_of [120; 34; 121; 10; 127; 233]);
                         PNone; PBool true; PFloat "1.5"]);
            ("b", PDict [])])
  = "{" +++ dq +++ "a" +++ dq +++ ": [1, " +++ dq +++ "x" +++ backslash +++ dq
    +++ "y" +++ backslash +++ "n" +++ backslash +++ "u007f" +++ backslash
    +++ "u00e9" +++ dq +++ ", null, true, 1.5], " +++ dq +++ "b" +++ dq +++ ": {}}".
Proof. vm_compute. reflexivity. Qed.

Example py_repr_example :
  py_repr (PList [PStr "a"; PStr "it's"; PStr (text_of [113; 34; 39]);
                  PStr (text_of [127; 160; 173; 233; 10]); PFloat "1.5";
                  PNone; PBool true; PDict [("k", PList [])]])
  = "['a', " +++ dq +++ "it's" +++ dq +++ ", 'q" +++ dq +++ backslash +++ "'', '"
    +++ backslash +++ "x7f" +++ backslash +++ "xa0" +++ backslash +++ "xad"
    +++ String (chr 233) "" +++ backslash +++ "n', 1.5, None, True, {'k': []}]".
Proof. vm_compute. reflexivity. Qed.

Example strip_example :
  strip (text_of [32; 28; 29; 30; 31; 133; 160; 11; 12; 97; 98; 0; 32])
  = text_of [97; 98; 0].
Proof. vm_compute. reflexivity. Qed.

(** * The pipeline, case by case *)

Ltac run_monad :=
  unfold send_whatsapp, send_and_log, returning, try_except, bind, io, update,
    lift, requests_post, requests_get, http, clock, time_sleep, emit, ret;
  cbn [fst snd].

(** What [send_whatsapp] does, by the answers of the world. *)
Lemma send_whatsapp_cases w row tid chid iu ifn cid sec delay h :
  send_whatsapp w row tid chid iu ifn cid sec delay h =
  let preq := post_request w row tid chid iu ifn cid sec h in
  let r0 := fresh_result row in
  match transport w h preq with
  | Raised e => (Ok (set_error (Some e) r0), h ++ [Http preq (Raised e)])
  | Ok rp =>
      let h1 := h ++ [Http preq (Ok rp)] in
      let r1 := set_send_response (Some (resp_text rp))
                  (set_status_code (Some (resp_status_code rp)) r0) in
      if success_status (resp_status_code rp) then
        match broadcast_id_of rp with
        | Raised e => (Ok (set_error (Some e) r1), h1)
        | Ok id =>
            let r2 := set_broadcast_id id r1 in
            if truthy id then
              let h2 := h1 ++ [Sleep (py_max0 delay)] in
              let greq := log_request w cid sec id h2 in
              match transport w h2 greq with
              | Raised e =>
                  (Ok (set_error (Some e) r2), h2 ++ [Http greq (Raised e)])
              | Ok g =>
                  (Ok (set_log_response (Some (resp_text g))
                         (set_log_status_code (Some (resp_status_code g)) r2)),
                   h2 ++ [Http greq (Ok g)])
              end
            else (Ok r2, h1)
        end
      else
        (Ok (set_error
               (Some (json_dumps
                        match resp_json rp with
                        | Ok j => j
                        | Raised _ => PDict [("raw", PStr (resp_text rp))]
                        end)) r1), h1)
  end.
Proof.
  run_monad. unfold post_request, log_request, fresh_result.
  destruct (transport w h _) as [rp | e]; cbn [fst snd]; [|reflexivity].
  destruct (success_status (resp_status_code rp)); cbn [fst snd].
  - destruct (broadcast_id_of rp) as [id | e]; cbn [fst snd]; [|reflexivity].
    destruct (truthy id); cbn [fst snd]; [|reflexivity].
    destruct (transport w _ _) as [g | e]; reflexivity.
  - destruct (resp_json rp); reflexivity.
Qed.

Lemma diagnostics_app a b : diagnostics (a ++ b) = diagnostics a ++ diagnostics b.
Proof.
  induction a as [|e a IH]; [reflexivity|].
  destruct e; cbn; rewrite IH; reflexivity.
Qed.

Lemma requests_app a b : requests (a ++ b) = requests a ++ requests b.
Proof.
  induction a as [|e a IH]; [reflexivity|].
  destruct e; cbn; rewrite IH; reflexivity.
Qed.

Ltac caught :=
  let H := fresh in
  intros ? ? H; cbn [In] in H;
  repeat match type of H with
         | _ \/ _ => destruct H as [H | H]
         end;
  try contradiction; try discriminate;
  try (injection H as _ <-; reflexivity);
  inversion H; subst; reflexivity.

(** [send_whatsapp] always returns: its first effect is the POST of the
    row; it raises no diagnostic, keeps the recipient in the result, and
    records the text of whatever a request raised. *)
Lemma send_whatsapp_returns w row tid chid iu ifn cid sec delay h :
  exists r evs,
    send_whatsapp w row tid chid iu ifn cid sec delay h =
    (Ok r, h ++ Http (post_request w row tid chid iu ifn cid sec h)
                     (transport w h (post_request w row tid chid iu ifn cid sec h))
                :: evs) /\
    recipient_in r = recipient_of row /\
    diagnostics evs = [] /\
    (forall req text,
        In (Http req (Raised text))
           (Http (post_request w row tid chid iu ifn cid sec h)
                 (transport w h (post_request w row tid chid iu ifn cid sec h))
              :: evs) ->
        error r = Some text).
Proof.
  rewrite send_whatsapp_cases. cbv zeta.
  destruct (transport w h _) as [rp | e].
  2:{ eexists; exists []; repeat split; try reflexivity. caught. }
  destruct (success_status (resp_status_code rp)).
  2:{ eexists; exists []; repeat split; try reflexivity. caught. }
  destruct (broadcast_id_of rp) as [id | e].
  2:{ eexists; exists []; repeat split; try reflexivity. caught. }
  destruct (truthy id).
  2:{ eexists; exists []; repeat split; try reflexivity. caught. }
  destruct (transport w _ _) as [g | e] eqn:Hget;
    rewrite <- !app_assoc; cbn [app];
    eexists; eexists; (split; [reflexivity|]);
    repeat split; try reflexivity; caught.
Qed.

(** * The batch loop *)

Lemma to_dict_records_length df :
  List.length (to_dict_records df) = List.length (cells df).
Proof. unfold to_dict_records. apply length_map. Qed.

(** The loop returns one result per remaining row, in their order, after
    the results it was given, and raises no diagnostic. *)
Lemma batch_loop_returns w c total :
  forall rows i results h,
    rows = [] \/ total <> 0 ->
    exists rs evs,
      batch_loop w c total i rows results h = (Ok (results ++ rs), h ++ evs) /\
      map recipient_in rs = map recipient_of rows /\
      diagnostics evs = [].
Proof.
  induction rows as [|row rest IH]; intros i results h Htotal.
  - exists [], []. cbn. rewrite !app_nil_r. repeat split.
  - destruct Htotal as [Hnil | Htotal]; [discriminate|].
    cbn [batch_loop]. unfold bind at 1. unfold emit at 1.
    unfold bind at 1.
    match goal with
    | |- context [send_whatsapp w row ?t ?ch ?u ?f ?ci ?se ?d ?hh] =>
        destruct (send_whatsapp_returns w row t ch u f ci se d hh)
          as (r & evs & Hrun & Hrec & Hdiag & _)
    end.
    rewrite Hrun.
    unfold bind at 1, lift at 1, py_div.
    destruct (total =? 0) eqn:Hz; [apply Z.eqb_eq in Hz; contradiction|].
    unfold bind at 1, emit at 1.
    match goal with
    | |- context [batch_loop w c total (i + 1) rest (results ++ [r]) ?hh] =>
        destruct (IH (i + 1) (results ++ [r]) hh (or_intror Htotal))
          as (rs & evs' & Hloop & Hrecs & Hdiag')
    end.
    rewrite Hloop.
    exists (r :: rs). eexists.
    split; [|split].
    + rewrite <- !app_assoc. cbn [app]. reflexivity.
    + cbn [map]. rewrite Hrec, Hrecs. reflexivity.
    + cbn [diagnostics]. rewrite !diagnostics_app. cbn [diagnostics].
      rewrite Hdiag, Hdiag'. reflexivity.
Qed.

Lemma run_batch_returns w c df h :
  exists results evs,
    run_batch w c df h = (Ok results, h ++ evs) /\
    map recipient_in results = map recipient_of (to_dict_records df) /\
    diagnostics evs = [].
Proof.
  unfold run_batch, bind, emit.
  assert (Htotal : to_dict_records df = [] \/ len df <> 0).
  { unfold len. rewrite <- to_dict_records_length.
    destruct (to_dict_records df); [left; reflexivity|right; cbn; lia]. }
  destruct (batch_loop_returns w c (len df) (to_dict_records df) 1 []
              (h ++ [ProgressBar 0]) Htotal) as (rs & evs & Hloop & Hrecs & Hdiag).
  rewrite Hloop. exists rs. eexists.
  split; [|split].
  - rewrite <- app_assoc. cbn [app]. reflexivity.
  - exact Hrecs.
  - cbn [diagnostics]. exact Hdiag.
Qed.

(** * Claims about one send *)

(** C10: when the send returns a success status (200/201/202) over a body
    that does not parse as JSON, [send_whatsapp] returns normally; the
    result carries the status code and the body, no broadcast identifier,
    no log fields, and the text of the parse exception as its error; the
    POST is the only request made. *)
Theorem C10_success_status_with_unparseable_body
    w row tid chid iu ifn cid sec delay h rp text :
  transport w h (post_request w row tid chid iu ifn cid sec h) = Ok rp ->
  success_status (resp_status_code rp) = true ->
  resp_json rp = Raised text ->
  send_whatsapp w row tid chid iu ifn cid sec delay h =
  (Ok (Result (strip (py_str (row_get "to_number" row)))
              (strip (py_str (row_get "to_name" row)))
              (Some (resp_status_code rp)) PNone (Some (resp_text rp))
              None None (Some text)),
   h ++ [Http (post_request w row tid chid iu ifn cid sec h) (Ok rp)]).
Proof.
  intros Hpost Hok Hjson.
  rewrite send_whatsapp_cases. cbv zeta.
  rewrite Hpost, Hok. unfold broadcast_id_of. rewrite Hjson. reflexivity.
Qed.

Lemma C10_witness :
  send_whatsapp (Scenario.fixed (Ok Scenario.accepted_html) (Ok Scenario.log_page))
    Scenario.ani "template" "channel" None None "client" "secret" 10 [] =
  (Ok (Result "628111" "Ani" (Some 202) PNone (Some "<html>accepted</html>")
              None None (Some "Expecting value: line 1 column 1 (char 0)")),
   [Http (post_request
            (Scenario.fixed (Ok Scenario.accepted_html) (Ok Scenario.log_page))
            Scenario.ani "template" "channel" None None "client" "secret" [])
         (Ok Scenario.accepted_html)]).
Proof.
  apply (C10_success_status_with_unparseable_body
           (Scenario.fixed (Ok Scenario.accepted_html) (Ok Scenario.log_page))
           Scenario.ani "template" "channel" None None "client" "secret" 10 []
           Scenario.accepted_html "Expecting value: line 1 column 1 (char 0)");
    reflexivity.
Defined.

(** C9: when the log fetch raises after a successful send that produced a
    broadcast identifier, the result keeps the status code, the body and
    the identifier recorded by the send; the log fields stay absent and the
    error is the text of the exception. *)
Theorem C9_log_failure_keeps_send_fields
    w row tid chid iu ifn cid sec delay h rp id text :
  transport w h (post_request w row tid chid iu ifn cid sec h) = Ok rp ->
  success_status (resp_status_code rp) = true ->
  broadcast_id_of rp = Ok id ->
  truthy id = true ->
  transport w
    (h ++ [Http (post_request w row tid chid iu ifn cid sec h) (Ok rp);
           Sleep (py_max0 delay)])
    (log_request w cid sec id
       (h ++ [Http (post_request w row tid chid iu ifn cid sec h) (Ok rp);
              Sleep (py_max0 delay)]))
  = Raised text ->
  exists r evs,
    send_whatsapp w row tid chid iu ifn cid sec delay h = (Ok r, h ++ evs) /\
    status_code r = Some (resp_status_code rp) /\
    send_response r = Some (resp_text rp) /\
    broadcast_id r = id /\
    log_status_code r = None /\
    log_response r = None /\
    error r = Some text.
Proof.
  intros Hpost Hok Hid Htrue Hget.
  rewrite send_whatsapp_cases. cbv zeta.
  rewrite Hpost, Hok, Hid, Htrue.
  rewrite <- !app_assoc. cbn [app].
  rewrite Hget. rewrite <- !app_assoc. cbn [app].
  eexists. eexists. split; [reflexivity|]. cbn. repeat split; reflexivity.
Qed.

Lemma C9_witness :
  exists r evs,
    send_whatsapp
      (Scenario.fixed (Ok (Scenario.created "bc_123")) (Raised "Read timed out."))
      Scenario.ani "template" "channel" None None "client" "secret" 10 []
    = (Ok r, [] ++ evs) /\
    status_code r = Some 201 /\
    send_response r = Some (resp_text (Scenario.created "bc_123")) /\
    broadcast_id r = PStr "bc_123" /\
    log_status_code r = None /\
    log_response r = None /\
    error r = Some "Read timed out.".
Proof.
  apply (C9_log_failure_keeps_send_fields
           (Scenario.fixed (Ok (Scenario.created "bc_123"))
              (Raised "Read timed out."))
           Scenario.ani "template" "channel" None None "client" "secret" 10 []
           (Scenario.created "bc_123") (PStr "bc_123") "Read timed out.");
    reflexivity.
Defined.





(** C2, as amended: when the send returns a status other than 200/201/202,
    the result carries that status and the body, no broadcast identifier
    and no log fields, and no log fetch is made; its error is the JSON
    text ([json.dumps]) of the parsed body when the body parses as JSON,
    and otherwise of the object that holds the raw text under the key
    [raw].  In the batch of three where the second send answers 422 with
    the body [{"error":"invalid number"}], the second result has status
    422, an error containing [invalid number] and no identifier, and the
    first and third recipients are sent and logged as usual. *)
Theorem C2_rejected_send_amended
    w row tid chid iu ifn cid sec delay h rp :
  transport w h (post_request w row tid chid iu ifn cid sec h) = Ok rp ->
  success_status (resp_status_code rp) = false ->
  send_whatsapp w row tid chid iu ifn cid sec delay h =
    (Ok (Result (strip (py_str (row_get "to_number" row)))
                (strip (py_str (row_get "to_name" row)))
                (Some (resp_status_code rp)) PNone (Some (resp_text rp))
                None None
                (Some (json_dumps
                         match resp_json rp with
                         | Ok j => j
                         | Raised _ => PDict [("raw", PStr (resp_text rp))]
                         end))),
     h ++ [Http (post_request w row tid chid iu ifn cid sec h) (Ok rp)])
  /\
  exists r1 r2 r3 e evs,
    run_batch Scenario.one_rejected (Scenario.cfg 0) Scenario.three [] =
      (Ok [r1; r2; r3], evs) /\
    status_code r2 = Some 422 /\
    error r2 = Some e /\ contains "invalid number" e = true /\
    broadcast_id r2 = PNone /\
    log_status_code r2 = None /\ log_response r2 = None /\
    status_code r1 = Some 201 /\ broadcast_id r1 = PStr "bc_123" /\
    log_status_code r1 = Some 200 /\ error r1 = None /\
    status_code r3 = Some 201 /\ broadcast_id r3 = PStr "bc_123" /\
    log_status_code r3 = Some 200 /\ error r3 = None /\
    List.length (log_fetches evs) = 2%nat.
Proof.
  intros Hpost Hok. split.
  - rewrite send_whatsapp_cases. cbv zeta. rewrite Hpost, Hok. reflexivity.
  - do 5 eexists. split; [vm_compute; reflexivity|].
    vm_compute. repeat split.
Qed.

Lemma C2_witness :
  send_whatsapp Scenario.one_rejected Scenario.budi "template" "channel"
    None None "client" "secret" 0 [] =
    (Ok (Result "628222" "Budi" (Some 422) PNone
                (Some (resp_text Scenario.rejected)) None None
                (Some (json_dumps (PDict [("error", PStr "invalid number")])))),
     [] ++ [Http (post_request Scenario.one_rejected Scenario.budi "template"
                    "channel" None None "client" "secret" [])
                 (Ok Scenario.rejected)]).
Proof.
  apply (C2_rejected_send_amended Scenario.one_rejected Scenario.budi
           "template" "channel" None None "client" "secret" 0 []
           Scenario.rejected); reflexivity.
Defined.

(** The claim as the specification words it fails on a body that is no
    JSON: a gateway answers 502 with the text [Bad Gateway]; the error
    recorded is the JSON object holding that text, not the text. *)
Lemma C2_counterexample :
  exists r evs,
    send_whatsapp (Scenario.fixed (Ok Scenario.bad_gateway) (Ok Scenario.log_page))
      Scenario.ani "template" "channel" None None "client" "secret" 0 [] =
    (Ok r, evs) /\
    success_status (resp_status_code Scenario.bad_gateway) = false /\
    spec_error_detail Scenario.bad_gateway = "Bad Gateway" /\
    error r = Some ("{" +++ dq +++ "raw" +++ dq +++ ": " +++ dq +++ "Bad Gateway"
                    +++ dq +++ "}") /\
    error r <> Some (spec_error_detail Scenario.bad_gateway).
Proof.
  do 2 eexists. split; [vm_compute; reflexivity|].
  vm_compute. repeat split. discriminate.
Qed.

(** * Claims about the payload, the exceptions and the run *)

(** C8: the payload that [send_whatsapp] posts has, under [parameters], a
    [header] entry exactly when a media URL is configured (a non-empty
    [image_url]); the entry then describes an image, with format [IMAGE]
    and the two parameters [url] and [filename] (the configured file name,
    or [banner.jpg] when none is given).  Without a media URL the
    [parameters] of the payload hold the empty [body] only. *)
Theorem C8_header_block_iff_media w row tid chid iu ifn cid sec delay h :
  exists r req out evs payload params,
    send_whatsapp w row tid chid iu ifn cid sec delay h =
      (Ok r, h ++ Http req out :: evs) /\
    req_method req = "POST" /\
    req_json req = Some (PDict payload) /\
    dict_get "parameters" payload = Some (PDict params) /\
    is_some (dict_get "header" params) = truthy_opt iu /\
    dict_get "header" params =
      match iu with
      | Some url =>
          if String.eqb url "" then None
          else Some (PDict
                       [ ("format", PStr "IMAGE");
                         ("params",
                          PList
                            [ PDict [("key", PStr "url"); ("value", PStr url)];
                              PDict [("key", PStr "filename");
                                     ("value",
                                      PStr match ifn with
                                           | Some f =>
                                               if String.eqb f "" then "banner.jpg"
                                               else f
                                           | None => "banner.jpg"
                                           end)] ]) ])
      | None => None
      end /\
    (truthy_opt iu = false -> params = [("body", PList [])]).
Proof.
  destruct (send_whatsapp_returns w row tid chid iu ifn cid sec delay h)
    as (r & evs & Hrun & _).
  exists r. eexists. eexists. exists evs. eexists. eexists.
  split; [exact Hrun|].
  split; [reflexivity|].
  split; [reflexivity|].
  split; [reflexivity|].
  destruct iu as [url|]; cbn.
  - destruct (String.eqb url ""); cbn; repeat split; try reflexivity.
    discriminate.
  - repeat split; reflexivity.
Qed.

Lemma C8_witness :
  exists r req out evs payload params,
    send_whatsapp Scenario.all_well Scenario.ani "template" "channel" None
      (Some "banner.jpg") "client" "secret" 0 [] =
      (Ok r, [] ++ Http req out :: evs) /\
    req_json req = Some (PDict payload) /\
    dict_get "parameters" payload = Some (PDict params) /\
    params = [("body", PList [])].
Proof.
  destruct (C8_header_block_iff_media Scenario.all_well Scenario.ani "template"
              "channel" None (Some "banner.jpg") "client" "secret" 0 [])
    as (r & req & out & evs & payload & params & Hrun & _ & Hjson & Hparams
        & _ & _ & Hnone).
  exists r, req, out, evs, payload, params.
  repeat split; try assumption.
  apply Hnone. reflexivity.
Defined.

(** C4: [send_whatsapp] never raises to its caller.  Whatever a request
    of the send or of the log fetch raises is caught: the function
    returns a result whose error is the text of that exception.  The
    batch goes on to the next recipients: it returns one result per row
    whatever the world answers. *)
Theorem C4_transport_exceptions_are_caught w :
  (forall row tid chid iu ifn cid sec delay h,
     exists r evs,
       send_whatsapp w row tid chid iu ifn cid sec delay h = (Ok r, h ++ evs) /\
       forall req text, In (Http req (Raised text)) evs -> error r = Some text)
  /\
  (forall c df h,
     exists results evs,
       run_batch w c df h = (Ok results, h ++ evs) /\
       List.length results = List.length (cells df)).
Proof.
  split.
  - intros row tid chid iu ifn cid sec delay h.
    destruct (send_whatsapp_returns w row tid chid iu ifn cid sec delay h)
      as (r & evs & Hrun & _ & _ & Hcaught).
    exists r. eexists. split; [exact Hrun | exact Hcaught].
  - intros c df h.
    destruct (run_batch_returns w c df h) as (results & evs & Hrun & Hrec & _).
    exists results, evs. split; [exact Hrun|].
    rewrite <- to_dict_records_length.
    rewrite <- (length_map recipient_in), Hrec. apply length_map.
Qed.

Lemma C4_witness :
  exists r evs,
    send_whatsapp Scenario.log_timeout Scenario.ani "template" "channel"
      None None "client" "secret" 0 [] = (Ok r, [] ++ evs) /\
    requests evs =
      [ post_request Scenario.log_timeout Scenario.ani "template" "channel"
          None None "client" "secret" [];
        log_request Scenario.log_timeout "client" "secret" (PStr "bc_123")
          [Http (post_request Scenario.log_timeout Scenario.ani "template"
                   "channel" None None "client" "secret" [])
                (Ok (Scenario.created "bc_123"));
           Sleep 0] ] /\
    error r = Some "Read timed out.".
Proof.
  destruct (proj1 (C4_transport_exceptions_are_caught Scenario.log_timeout)
              Scenario.ani "template" "channel" None None "client" "secret"
              0%Q []) as (r & evs & Hrun & Hcaught).
  exists r, evs. split; [exact Hrun|].
  assert (Hevs : evs =
            [ Http (post_request Scenario.log_timeout Scenario.ani "template"
                      "channel" None None "client" "secret" [])
                   (Ok (Scenario.created "bc_123"));
              Sleep 0;
              Http (log_request Scenario.log_timeout "client" "secret"
                      (PStr "bc_123")
                      [Http (post_request Scenario.log_timeout Scenario.ani
                               "template" "channel" None None "client"
                               "secret" [])
                            (Ok (Scenario.created "bc_123"));
                       Sleep 0])
                   (Raised "Read timed out.") ]).
  { vm_compute in Hrun. injection Hrun as _ <-. vm_compute. reflexivity. }
  split.
  - rewrite Hevs. reflexivity.
  - apply (Hcaught (log_request Scenario.log_timeout "client" "secret"
                      (PStr "bc_123")
                      [Http (post_request Scenario.log_timeout Scenario.ani
                               "template" "channel" None None "client"
                               "secret" [])
                            (Ok (Scenario.created "bc_123"));
                       Sleep 0])).
    rewrite Hevs. right. right. left. reflexivity.
Defined.

(** C1: over any frame and in any world the batch returns, with exactly
    one result per row of the frame, in the order of the rows: the k-th
    result is the one of the k-th recipient. *)
Theorem C1_one_result_per_recipient w c df h :
  exists results evs,
    run_batch w c df h = (Ok results, h ++ evs) /\
    List.length results = List.length (cells df) /\
    map recipient_in results = map recipient_of (to_dict_records df).
Proof.
  destruct (run_batch_returns w c df h) as (results & evs & Hrun & Hrec & _).
  exists results, evs. split; [exact Hrun|]. split; [|exact Hrec].
  rewrite <- to_dict_records_length.
  rewrite <- (length_map recipient_in), Hrec. apply length_map.
Qed.

Lemma nonempty_empty s : s = "" -> nonempty s = false.
Proof. intros ->. reflexivity. Qed.

(** [validate_dataframe] accepts exactly the frames with both columns,
    whatever the order the set is iterated in. *)
Lemma validate_dataframe_ok number_first df :
  fst (validate_dataframe number_first df) =
  mem "to_number" (columns df) && mem "to_name" (columns df).
Proof.
  unfold validate_dataframe, required.
  destruct number_first; cbn [filter fst];
    destruct (mem "to_number" (columns df)), (mem "to_name" (columns df));
    reflexivity.
Qed.

Lemma run_clicked_stops w number_first c df h :
  preconditions c df = false ->
  exists msg,
    run_clicked w number_first c df h = (Ok Stopped, h ++ [StError msg]).
Proof.
  unfold preconditions, run_clicked. intros Hpre.
  destruct (nonempty (client_id c) && nonempty (client_secret c)
            && nonempty (template_id c) && nonempty (channel_id c)) eqn:Hcred;
    cbn [negb].
  - pose proof (validate_dataframe_ok number_first df) as Hok.
    destruct (validate_dataframe number_first df) as [ok missing].
    cbn [fst] in Hok. rewrite <- andb_assoc, <- Hok in Hpre.
    cbn in Hpre. subst ok. cbn [negb].
    eexists. reflexivity.
  - eexists. reflexivity.
Qed.

Lemma run_clicked_finishes w number_first c df h :
  preconditions c df = true ->
  exists results evs,
    run_clicked w number_first c df h = (Ok (Finished results), h ++ evs) /\
    diagnostics evs = [] /\
    map recipient_in results = map recipient_of (to_dict_records (capped c df)).
Proof.
  unfold preconditions, run_clicked. intros Hpre.
  rewrite <- andb_assoc in Hpre. apply andb_prop in Hpre as [Hcred Hcols].
  rewrite Hcred. cbn [negb].
  pose proof (validate_dataframe_ok number_first df) as Hok.
  destruct (validate_dataframe number_first df) as [ok missing].
  cbn [fst] in Hok. rewrite Hcols in Hok. subst ok. cbn [negb].
  unfold bind at 1, emit at 1. unfold bind at 1.
  destruct (run_batch_returns w c (capped c df) (h ++ [StInfo]))
    as (results & evs & Hrun & Hrec & Hdiag).
  rewrite Hrun. unfold bind, emit, ret.
  exists results. eexists. split; [|split].
  - rewrite <- !app_assoc. cbn [app]. reflexivity.
  - cbn [diagnostics]. rewrite diagnostics_app, Hdiag. reflexivity.
  - exact Hrec.
Qed.

(** C7: when a required column ([to_number] or [to_name]) is missing, or
    one of the client id, client secret, template id and channel id is
    empty, the run stops with one diagnostic as its only effect: no
    request is made and no result is produced.  The checks come before
    the batch and only there: a run that passes them raises no diagnostic
    and ends with the results of the batch, one per row of the capped
    frame. *)
Theorem C7_preconditions_stop_the_run_first w number_first c df h :
  (client_id c = "" \/ client_secret c = "" \/ template_id c = "" \/
   channel_id c = "" \/ mem "to_number" (columns df) = false \/
   mem "to_name" (columns df) = false ->
   exists msg,
     run_clicked w number_first c df h = (Ok Stopped, h ++ [StError msg]) /\
     requests [StError msg] = [])
  /\
  (preconditions c df = true ->
   exists results evs,
     run_clicked w number_first c df h = (Ok (Finished results), h ++ evs) /\
     diagnostics evs = [] /\
     List.length results = List.length (cells (capped c df))).
Proof.
  split.
  - intros Hbad.
    assert (Hpre : preconditions c df = false).
    { unfold preconditions.
      destruct Hbad as [H | [H | [H | [H | [H | H]]]]];
        try (apply nonempty_empty in H); rewrite H;
        repeat rewrite ?andb_false_r, ?andb_false_l; reflexivity. }
    destruct (run_clicked_stops w number_first c df h Hpre) as (msg & Hrun).
    exists msg. split; [exact Hrun | reflexivity].
  - intros Hpre.
    destruct (run_clicked_finishes w number_first c df h Hpre)
      as (results & evs & Hrun & Hdiag & Hrec).
    exists results, evs. repeat split; try assumption.
    rewrite <- to_dict_records_length.
    rewrite <- (length_map recipient_in), Hrec. apply length_map.
Qed.

Lemma C7_witness :
  exists msg,
    run_clicked Scenario.all_well true (Scenario.cfg 0) Scenario.no_number [] =
      (Ok Stopped, [] ++ [StError msg]) /\
    requests [StError msg] = [].
Proof.
  apply (proj1 (C7_preconditions_stop_the_run_first Scenario.all_well true
                  (Scenario.cfg 0) Scenario.no_number [])).
  right. right. right. right. left. reflexivity.
Defined.

(** * Claims about the signer *)

Lemma eat_literal p s : eat p (p +++ s) = Some s.
Proof.
  induction p as [|a p IH]; [destruct s; reflexivity|].
  cbn. rewrite Ascii.eqb_refl. exact IH.
Qed.

Lemma eat_digits_app n : forall a s,
  digits n a = true -> eat_digits n (a +++ s) = Some s.
Proof.
  unfold digits. induction n as [|n IH]; intros a s Ha.
  - destruct a; [reflexivity|discriminate].
  - destruct a as [|c a]; [discriminate|].
    cbn in *. destruct (is_digit c); [|discriminate].
    apply IH. exact Ha.
Qed.

(** A property checked on every integer of a range holds on the range. *)
Lemma on_range (P : Z -> bool) (lo n : Z) :
  forallb (fun k => P (lo + Z.of_nat k)) (seq 0 (Z.to_nat n)) = true ->
  forall z, lo <= z < lo + n -> P z = true.
Proof.
  intros Hall z Hz. rewrite forallb_forall in Hall.
  replace z with (lo + Z.of_nat (Z.to_nat (z - lo))) by lia.
  apply Hall. apply in_seq. lia.
Qed.

Lemma dec2_digits z : 0 <= z <= 99 -> digits 2 (dec2 z) = true.
Proof.
  intros Hz. apply (on_range (fun z => digits 2 (dec2 z)) 0 100).
  - vm_compute. reflexivity.
  - lia.
Qed.

Lemma dec_year_digits y : 1000 <= y <= 9999 -> digits 4 (dec y) = true.
Proof.
  intros Hy. apply (on_range (fun y => digits 4 (dec y)) 1000 9000).
  - vm_compute. reflexivity.
  - lia.
Qed.

Lemma eat_day_abbr k s :
  0 <= k < 7 -> eat_one_of day_abbr (nth (Z.to_nat k) day_abbr "" +++ s) = Some s.
Proof.
  intros Hk.
  assert (Hcases : k = 0 \/ k = 1 \/ k = 2 \/ k = 3 \/ k = 4 \/ k = 5 \/ k = 6)
    by lia.
  repeat (destruct Hcases as [-> | Hcases]; [reflexivity|]).
  subst k. reflexivity.
Qed.

Lemma eat_month_abbr m s :
  1 <= m <= 12 ->
  eat_one_of month_abbr (nth (Z.to_nat (m - 1)) month_abbr "" +++ s) = Some s.
Proof.
  intros Hm.
  assert (Hcases : m = 1 \/ m = 2 \/ m = 3 \/ m = 4 \/ m = 5 \/ m = 6 \/
                   m = 7 \/ m = 8 \/ m = 9 \/ m = 10 \/ m = 11 \/ m = 12)
    by lia.
  repeat (destruct Hcases as [-> | Hcases]; [reflexivity|]).
  subst m. reflexivity.
Qed.

Lemma append_assoc (a b c : string) : (a +++ b) +++ c = a +++ b +++ c.
Proof. induction a as [|x a IH]; [reflexivity|]. cbn. rewrite IH. reflexivity. Qed.

(** The rendering of a valid clock reading has the RFC 1123 shape. *)
Lemma strftime_rfc1123 now : valid_datetime now -> rfc1123 (strftime now) = true.
Proof.
  intros (Hy & Hm & Hd & Hh & Hmin & Hs & _).
  unfold rfc1123, strftime.
  rewrite eat_day_abbr by (unfold weekday; apply Z.mod_pos_bound; lia).
  cbn [and_then]. rewrite eat_literal.
  cbn [and_then]. rewrite (eat_digits_app 2) by (apply dec2_digits; lia).
  cbn [and_then]. rewrite eat_literal.
  cbn [and_then]. rewrite eat_month_abbr by lia.
  cbn [and_then]. rewrite eat_literal.
  cbn [and_then]. rewrite (eat_digits_app 4) by (apply dec_year_digits; lia).
  cbn [and_then]. rewrite eat_literal.
  cbn [and_then]. rewrite (eat_digits_app 2) by (apply dec2_digits; lia).
  cbn [and_then]. rewrite eat_literal.
  cbn [and_then]. rewrite (eat_digits_app 2) by (apply dec2_digits; lia).
  cbn [and_then]. rewrite eat_literal.
  cbn [and_then]. rewrite (eat_digits_app 2) by (apply dec2_digits; lia).
  reflexivity.
Qed.

(** C5: for every clock reading, method, path, client id and client
    secret, the signer returns a [Date] header that is the reading
    rendered as an RFC 1123 date, and an [Authorization] header of the
    form [hmac username="<client_id>", algorithm="hmac-sha256",
    headers="date request-line", signature="<sig>"], in which [<sig>] is
    the base64 text of the HMAC-SHA256, under the client secret, of the two
    lines [date: <Date>] and [<METHOD> <path> HTTP/1.1], with the same date. *)
Theorem C5_signer_headers now method path id secret :
  dict_get "Date" (generate_auth_headers now method path id secret)
    = Some (strftime now) /\
  dict_get "Authorization" (generate_auth_headers now method path id secret)
    = Some (spec_authorization id
              (spec_signature secret (strftime now) method path)) /\
  dict_get "Content-Type" (generate_auth_headers now method path id secret)
    = Some "application/json" /\
  (valid_datetime now -> rfc1123 (strftime now) = true).
Proof.
  split; [reflexivity|]. split; [|split; [reflexivity|apply strftime_rfc1123]].
  unfold generate_auth_headers. cbn [dict_get String.eqb Ascii.eqb Bool.eqb].
  unfold spec_authorization, spec_signature, signature, string_to_sign,
    spec_canonical, request_line.
  reflexivity.
Qed.

Lemma C5_witness :
  valid_datetime (DateTime 1994 11 6 8 49 37 0) /\
  rfc1123 (strftime (DateTime 1994 11 6 8 49 37 0)) = true.
Proof.
  assert (Hvalid : valid_datetime (DateTime 1994 11 6 8 49 37 0))
    by (unfold valid_datetime; cbn; lia).
  split; [exact Hvalid|].
  apply (proj2 (proj2 (proj2
           (C5_signer_headers (DateTime 1994 11 6 8 49 37 0) "POST"
              post_url_path "client" "secret")))).
  exact Hvalid.
Defined.

(** C6: the signer is a function of the method, the path, the client id,
    the secret and the date the clock reading renders to: two calls that
    agree on these return the same headers.  There are a method, a path
    and a reading at which changing the secret changes the signature, and
    at which changing the path changes it.  The [Date] header is the date
    inside the string that is signed. *)
Theorem C6_signer_determinism :
  (forall now1 now2 method path id secret,
     strftime now1 = strftime now2 ->
     generate_auth_headers now1 method path id secret =
     generate_auth_headers now2 method path id secret)
  /\
  (exists now method path id secret1 secret2,
     signature secret1 (string_to_sign (strftime now) method path) <>
     signature secret2 (string_to_sign (strftime now) method path) /\
     dict_get "Authorization" (generate_auth_headers now method path id secret1) <>
     dict_get "Authorization" (generate_auth_headers now method path id secret2))
  /\
  (exists now method path1 path2 id secret,
     signature secret (string_to_sign (strftime now) method path1) <>
     signature secret (string_to_sign (strftime now) method path2) /\
     dict_get "Authorization" (generate_auth_headers now method path1 id secret) <>
     dict_get "Authorization" (generate_auth_headers now method path2 id secret))
  /\
  (forall now method path id secret,
     exists date,
       dict_get "Date" (generate_auth_headers now method path id secret)
         = Some date /\
       dict_get "Authorization" (generate_auth_headers now method path id secret)
         = Some (spec_authorization id
                   (signature secret
                      ("date: " +++ date +++ nl +++ method +++ " " +++ path
                       +++ " HTTP/1.1")))).
Proof.
  split; [|split; [|split]].
  - intros now1 now2 method path id secret Hdate.
    unfold generate_auth_headers. rewrite Hdate. reflexivity.
  - exists (DateTime 1994 11 6 8 49 37 0), "POST", post_url_path, "client",
      "secret", "secret2".
    split; vm_compute; discriminate.
  - exists (DateTime 1994 11 6 8 49 37 0), "POST", post_url_path,
      (get_url_path (PStr "bc_123")), "client", "secret".
    split; vm_compute; discriminate.
  - intros now method path id secret. exists (strftime now).
    split; [reflexivity|].
    unfold generate_auth_headers. cbn [dict_get String.eqb Ascii.eqb Bool.eqb].
    unfold spec_authorization, string_to_sign, request_line. reflexivity.
Qed.

Lemma C6_witness :
  strftime (DateTime 2024 5 17 12 0 0 0) = strftime (DateTime 2024 5 17 12 0 0 250000) /\
  generate_auth_headers (DateTime 2024 5 17 12 0 0 0) "GET"
    (get_url_path (PStr "bc_123")) "client" "secret" =
  generate_auth_headers (DateTime 2024 5 17 12 0 0 250000) "GET"
    (get_url_path (PStr "bc_123")) "client" "secret".
Proof.
  assert (Hdate : strftime (DateTime 2024 5 17 12 0 0 0)
                  = strftime (DateTime 2024 5 17 12 0 0 250000))
    by reflexivity.
  split; [exact Hdate|].
  apply (proj1 C6_signer_determinism _ _ "GET" (get_url_path (PStr "bc_123"))
           "client" "secret" Hdate).
Defined.

(** * Further properties of one send *)

Lemma sends_app a b : sends (a ++ b) = sends a ++ sends b.
Proof.
  induction a as [|e a IH]; [reflexivity|].
  destruct e; cbn; try exact IH.
  destruct (String.eqb (req_method req) "POST"); cbn; rewrite IH; reflexivity.
Qed.

Lemma log_fetches_app a b : log_fetches (a ++ b) = log_fetches a ++ log_fetches b.
Proof.
  induction a as [|e a IH]; [reflexivity|].
  destruct e; cbn; try exact IH.
  destruct (String.eqb (req_method req) "GET"); cbn; rewrite IH; reflexivity.
Qed.

Lemma sleeps_app a b : sleeps (a ++ b) = sleeps a ++ sleeps b.
Proof.
  induction a as [|e a IH]; [reflexivity|].
  destruct e; cbn; rewrite ?IH; reflexivity.
Qed.

Lemma progress_values_app a b :
  progress_values (a ++ b) = progress_values a ++ progress_values b.
Proof.
  induction a as [|e a IH]; [reflexivity|].
  destruct e; cbn; rewrite ?IH; reflexivity.
Qed.


(** The effects of [send_whatsapp] have one of two shapes. *)
Lemma send_whatsapp_shape w row tid chid iu ifn cid sec delay h :
  exists r evs,
    send_whatsapp w row tid chid iu ifn cid sec delay h = (Ok r, h ++ evs) /\
    ((exists out,
        evs = [Http (post_request w row tid chid iu ifn cid sec h) out] /\
        truthy (broadcast_id r) = false /\
        log_status_code r = None /\ log_response r = None)
     \/
     (exists rp gout,
        evs = [Http (post_request w row tid chid iu ifn cid sec h) (Ok rp);
               Sleep (py_max0 delay);
               Http (log_request w cid sec (broadcast_id r)
                       (h ++ [Http (post_request w row tid chid iu ifn cid sec h)
                                   (Ok rp);
                              Sleep (py_max0 delay)])) gout] /\
        success_status (resp_status_code rp) = true /\
        truthy (broadcast_id r) = true /\
        status_code r = Some (resp_status_code rp))).
Proof.
  rewrite send_whatsapp_cases. cbv zeta.
  destruct (transport w h _) as [rp | e] eqn:Hpost.
  2:{ eexists. eexists. split; [reflexivity|]. left. eexists.
      repeat split; reflexivity. }
  destruct (success_status (resp_status_code rp)) eqn:Hok.
  2:{ eexists. eexists. split; [reflexivity|]. left. eexists.
      repeat split; reflexivity. }
  destruct (broadcast_id_of rp) as [id | e] eqn:Hid.
  2:{ eexists. eexists. split; [reflexivity|]. left. eexists.
      repeat split; reflexivity. }
  destruct (truthy id) eqn:Htrue.
  2:{ eexists. eexists. split; [reflexivity|]. left. eexists.
      split; [reflexivity|]. split; [exact Htrue|split; reflexivity]. }
  rewrite <- !app_assoc. cbn [app].
  match goal with
  | |- context [match transport w ?hh ?rq with _ => _ end] =>
      destruct (transport w hh rq) as [g | e] eqn:Hget
  end;
    cbv beta iota; rewrite <- ?app_assoc; cbn [app];
    eexists; eexists; (split; [reflexivity|]); right;
    exists rp; eexists; (split; [reflexivity|]); (split; [exact Hok|]);
    (split; [exact Htrue|reflexivity]).
Qed.


(** X2: the fields of a result go together.  The status code and the body
    of the send are both present or both absent, and so are the two log
    fields; log fields are present only beside a truthy identifier, a
    success status and no error; an identifier is recorded only under a
    success status; and a result without a status code has an error. *)
Theorem X2_result_fields_go_together w row tid chid iu ifn cid sec delay h :
  exists r evs,
    send_whatsapp w row tid chid iu ifn cid sec delay h = (Ok r, h ++ evs) /\
    is_some (status_code r) = is_some (send_response r) /\
    is_some (log_status_code r) = is_some (log_response r) /\
    match log_status_code r with
    | Some _ => truthy (broadcast_id r) = true /\ error r = None
    | None => True
    end /\
    match status_code r with
    | Some s => broadcast_id r = PNone \/ success_status s = true
    | None => broadcast_id r = PNone /\ is_some (error r) = true
    end.
Proof.
  rewrite send_whatsapp_cases. cbv zeta.
  destruct (transport w h _) as [rp | e] eqn:Hpost.
  2:{ eexists. eexists. split; [reflexivity|]. cbn. repeat split. }
  destruct (success_status (resp_status_code rp)) eqn:Hok.
  2:{ eexists. eexists. split; [reflexivity|]. cbn. repeat split. left. reflexivity. }
  destruct (broadcast_id_of rp) as [id | e] eqn:Hid.
  2:{ eexists. eexists. split; [reflexivity|]. cbn. repeat split. left. reflexivity. }
  destruct (truthy id) eqn:Htrue.
  2:{ eexists. eexists. split; [reflexivity|]. cbn. repeat split. right. exact Hok. }
  rewrite <- !app_assoc. cbn [app].
  match goal with
  | |- context [match transport w ?hh ?rq with _ => _ end] =>
      destruct (transport w hh rq) as [g | e] eqn:Hget
  end;
    cbv beta iota; rewrite <- ?app_assoc; cbn [app];
    eexists; eexists; (split; [reflexivity|]); cbn; repeat split;
    try assumption; right; exact Hok.
Qed.

(** X3: when the POST itself raises (connection error, timeout), the
    result has only its error set, to the text of the exception: no status
    code, no body, no identifier, no log fields; the failed POST is the
    only effect, there is no wait and no log fetch. *)
Theorem X3_failed_post_sets_only_the_error
    w row tid chid iu ifn cid sec delay h text :
  transport w h (post_request w row tid chid iu ifn cid sec h) = Raised text ->
  send_whatsapp w row tid chid iu ifn cid sec delay h =
    (Ok (Result (strip (py_str (row_get "to_number" row)))
                (strip (py_str (row_get "to_name" row)))
                None PNone None None None (Some text)),
     h ++ [Http (post_request w row tid chid iu ifn cid sec h) (Raised text)]).
Proof.
  intros Hpost. rewrite send_whatsapp_cases. cbv zeta. rewrite Hpost. reflexivity.
Qed.

Lemma X3_witness :
  send_whatsapp (Edge.answering (Raised "Connection refused"))
    Scenario.ani "template" "channel" None None "client" "secret" 10 [] =
    (Ok (Result "628111" "Ani" None PNone None None None (Some "Connection refused")),
     [] ++ [Http (post_request (Edge.answering (Raised "Connection refused"))
                    Scenario.ani "template" "channel" None None "client" "secret" [])
                 (Raised "Connection refused")]).
Proof.
  apply (X3_failed_post_sets_only_the_error
           (Edge.answering (Raised "Connection refused"))
           Scenario.ani "template" "channel" None None "client" "secret" 10 []
           "Connection refused").
  reflexivity.
Defined.

(** X4: a success status whose [data.id] is present but falsy (an empty
    text, 0, [false], [null], an empty list or object) is treated as no
    identifier for the log: the value is recorded as the broadcast
    identifier, there is no wait, no log fetch and no error. *)
Theorem X4_falsy_identifier_is_recorded_but_not_fetched
    w row tid chid iu ifn cid sec delay h rp d inner id :
  transport w h (post_request w row tid chid iu ifn cid sec h) = Ok rp ->
  success_status (resp_status_code rp) = true ->
  resp_json rp = Ok (PDict d) ->
  dict_get "data" d = Some (PDict inner) ->
  dict_get "id" inner = Some id ->
  truthy id = false ->
  send_whatsapp w row tid chid iu ifn cid sec delay h =
    (Ok (Result (strip (py_str (row_get "to_number" row)))
                (strip (py_str (row_get "to_name" row)))
                (Some (resp_status_code rp)) id (Some (resp_text rp))
                None None None),
     h ++ [Http (post_request w row tid chid iu ifn cid sec h) (Ok rp)]).
Proof.
  intros Hpost Hok Hjson Hdata Hid Hfalse.
  rewrite send_whatsapp_cases. cbv zeta.
  rewrite Hpost, Hok. unfold broadcast_id_of. rewrite Hjson.
  cbn [py_get]. rewrite Hdata. cbn [py_get]. rewrite Hid, Hfalse. reflexivity.
Qed.

Lemma X4_witness :
  send_whatsapp (Edge.answering (Ok Edge.zero_id))
    Scenario.ani "template" "channel" None None "client" "secret" 10 [] =
    (Ok (Result "628111" "Ani" (Some 200) (PInt 0)
           (Some (resp_text Edge.zero_id)) None None None),
     [] ++ [Http (post_request (Edge.answering (Ok Edge.zero_id))
                    Scenario.ani "template" "channel" None None "client" "secret" [])
                 (Ok Edge.zero_id)]).
Proof.
  apply (X4_falsy_identifier_is_recorded_but_not_fetched
           (Edge.answering (Ok Edge.zero_id))
           Scenario.ani "template" "channel" None None "client" "secret" 10 []
           Edge.zero_id [("data", PDict [("id", PInt 0)])] [("id", PInt 0)]
           (PInt 0));
    reflexivity.
Defined.

(** X5: a success status over a JSON object that has no [data] key, or
    whose [data] object has no [id] key, ends the send without identifier
    and without error: the status code and the body are recorded, the POST
    is the only request. *)
Theorem X5_success_without_identifier
    w row tid chid iu ifn cid sec delay h rp d :
  transport w h (post_request w row tid chid iu ifn cid sec h) = Ok rp ->
  success_status (resp_status_code rp) = true ->
  resp_json rp = Ok (PDict d) ->
  dict_get "data" d = None \/
  (exists inner, dict_get "data" d = Some (PDict inner) /\
                 dict_get "id" inner = None) ->
  send_whatsapp w row tid chid iu ifn cid sec delay h =
    (Ok (Result (strip (py_str (row_get "to_number" row)))
                (strip (py_str (row_get "to_name" row)))
                (Some (resp_status_code rp)) PNone (Some (resp_text rp))
                None None None),
     h ++ [Http (post_request w row tid chid iu ifn cid sec h) (Ok rp)]).
Proof.
  intros Hpost Hok Hjson Hkeys.
  rewrite send_whatsapp_cases. cbv zeta.
  rewrite Hpost, Hok. unfold broadcast_id_of. rewrite Hjson. cbn [py_get].
  destruct Hkeys as [Hdata | (inner & Hdata & Hid)]; rewrite Hdata; cbn [py_get].
  - reflexivity.
  - rewrite Hid. reflexivity.
Qed.

Lemma X5_witness :
  send_whatsapp (Edge.answering (Ok Edge.empty_object))
    Scenario.ani "template" "channel" None None "client" "secret" 10 [] =
    (Ok (Result "628111" "Ani" (Some 202) PNone (Some "{}") None None None),
     [] ++ [Http (post_request (Edge.answering (Ok Edge.empty_object))
                    Scenario.ani "template" "channel" None None "client" "secret" [])
                 (Ok Edge.empty_object)]).
Proof.
  apply (X5_success_without_identifier (Edge.answering (Ok Edge.empty_object))
           Scenario.ani "template" "channel" None None "client" "secret" 10 []
           Edge.empty_object []); try reflexivity.
  left. reflexivity.
Defined.

(** X6: a success status over a body that is JSON but not an object (a
    list, a text, a number, [null]), or whose [data] is not an object,
    ends in the except branch: the result keeps the status code and the
    body, has no identifier and no log fields, and its error reads
    ['<type>' object has no attribute 'get'] for the type of the value
    found; the POST is the only request. *)
Theorem X6_body_that_is_no_object
    w row tid chid iu ifn cid sec delay h rp v :
  transport w h (post_request w row tid chid iu ifn cid sec h) = Ok rp ->
  success_status (resp_status_code rp) = true ->
  is_dict v = false ->
  resp_json rp = Ok v \/
  (exists d, resp_json rp = Ok (PDict d) /\ dict_get "data" d = Some v) ->
  send_whatsapp w row tid chid iu ifn cid sec delay h =
    (Ok (Result (strip (py_str (row_get "to_number" row)))
                (strip (py_str (row_get "to_name" row)))
                (Some (resp_status_code rp)) PNone (Some (resp_text rp))
                None None
                (Some ("'" +++ type_name v +++ "' object has no attribute 'get'"))),
     h ++ [Http (post_request w row tid chid iu ifn cid sec h) (Ok rp)]).
Proof.
  intros Hpost Hok Hv Hjson.
  rewrite send_whatsapp_cases. cbv zeta.
  rewrite Hpost, Hok. unfold broadcast_id_of.
  destruct Hjson as [Hjson | (d & Hjson & Hdata)]; rewrite Hjson.
  - destruct v; try discriminate; reflexivity.
  - cbn [py_get]. rewrite Hdata.
    destruct v; try discriminate; reflexivity.
Qed.

Lemma X6_witness :
  send_whatsapp (Edge.answering (Ok Edge.empty_list))
    Scenario.ani "template" "channel" None None "client" "secret" 10 [] =
    (Ok (Result "628111" "Ani" (Some 200) PNone (Some "[]") None None
           (Some "'list' object has no attribute 'get'")),
     [] ++ [Http (post_request (Edge.answering (Ok Edge.empty_list))
                    Scenario.ani "template" "channel" None None "client" "secret" [])
                 (Ok Edge.empty_list)]).
Proof.
  apply (X6_body_that_is_no_object (Edge.answering (Ok Edge.empty_list))
           Scenario.ani "template" "channel" None None "client" "secret" 10 []
           Edge.empty_list (PList [])); try reflexivity.
  left. reflexivity.
Defined.

(** * The recipient read from a row *)

Lemma lstrip_starts s : starts_with_space (lstrip s) = false.
Proof.
  induction s as [|c s IH]; [reflexivity|].
  cbn. destruct (is_space (code c)) eqn:Hc; [exact IH|]. cbn. exact Hc.
Qed.

Lemma lstrip_fixed s : starts_with_space s = false -> lstrip s = s.
Proof. destruct s as [|c s]; [reflexivity|]. cbn. intros ->. reflexivity. Qed.

Lemma rstrip_starts s :
  starts_with_space s = false -> starts_with_space (rstrip s) = false.
Proof.
  destruct s as [|c s]; [reflexivity|]. cbn. intros Hc.
  destruct (rstrip s); rewrite ?Hc; cbn; rewrite ?Hc; reflexivity.
Qed.

Lemma rstrip_ends s : ends_with_space (rstrip s) = false.
Proof.
  induction s as [|c s IH]; [reflexivity|].
  cbn. destruct (rstrip s) as [|a b] eqn:Hr.
  - destruct (is_space (code c)) eqn:Hc; cbn; rewrite ?Hc; reflexivity.
  - exact IH.
Qed.

Lemma rstrip_idempotent s : rstrip (rstrip s) = rstrip s.
Proof.
  induction s as [|c s IH]; [reflexivity|].
  cbn. destruct (rstrip s) as [|a b] eqn:Hr.
  - destruct (is_space (code c)) eqn:Hc; cbn; rewrite ?Hc; reflexivity.
  - cbn [rstrip] in *. rewrite IH. reflexivity.
Qed.

Lemma strip_idempotent s : strip (strip s) = strip s.
Proof.
  unfold strip.
  rewrite (lstrip_fixed (rstrip (lstrip s)))
    by (apply rstrip_starts, lstrip_starts).
  apply rstrip_idempotent.
Qed.

Lemma strip_no_space s : no_space s = true -> strip s = s.
Proof.
  intros Hs. unfold strip.
  assert (Hl : lstrip s = s).
  { destruct s as [|c s]; [reflexivity|]. cbn in *.
    destruct (is_space (code c)); [discriminate|reflexivity]. }
  rewrite Hl. clear Hl.
  induction s as [|c s IH]; [reflexivity|].
  cbn in *. apply andb_prop in Hs as [Hc Hs]. rewrite (IH Hs).
  destruct s; [|reflexivity].
  destruct (is_space (code c)); [discriminate|reflexivity].
Qed.

(** X7: the recipient of a result is the stripped one: [to_number] and
    [to_name] neither start nor end with white space, stripping them again
    changes nothing, and they are the very texts the payload of the POST
    carries. *)
Theorem X7_recipient_is_stripped w row tid chid iu ifn cid sec delay h :
  exists r req out evs payload,
    send_whatsapp w row tid chid iu ifn cid sec delay h =
      (Ok r, h ++ Http req out :: evs) /\
    req_json req = Some (PDict payload) /\
    dict_get "to_number" payload = Some (PStr (to_number r)) /\
    dict_get "to_name" payload = Some (PStr (to_name r)) /\
    strip (to_number r) = to_number r /\
    strip (to_name r) = to_name r /\
    starts_with_space (to_number r) = false /\
    ends_with_space (to_number r) = false /\
    starts_with_space (to_name r) = false /\
    ends_with_space (to_name r) = false.
Proof.
  destruct (send_whatsapp_returns w row tid chid iu ifn cid sec delay h)
    as (r & evs & Hrun & Hrec & _).
  unfold recipient_in, recipient_of in Hrec. injection Hrec as Hnum Hname.
  exists r. eexists. eexists. exists evs. eexists.
  split; [exact Hrun|]. split; [reflexivity|].
  rewrite Hnum, Hname. cbn [build_payload dict_get String.eqb Ascii.eqb Bool.eqb].
  repeat split; try reflexivity;
    try apply strip_idempotent;
    try (apply rstrip_starts, lstrip_starts);
    apply rstrip_ends.
Qed.

Lemma digits_of_uint d : all_digits (NilEmpty.string_of_uint d) = true.
Proof. induction d; cbn; try exact IHd; reflexivity. Qed.

Lemma all_digits_no_space s : all_digits s = true -> no_space s = true.
Proof.
  induction s as [|c s IH]; [reflexivity|].
  cbn. intros H. apply andb_prop in H as [Hc Hs]. rewrite (IH Hs), andb_true_r.
  unfold is_digit in Hc. unfold is_space.
  apply andb_prop in Hc as [Hlo Hhi].
  apply Z.leb_le in Hlo. apply Z.leb_le in Hhi.
  repeat match goal with
         | |- context [?a <=? ?b] => destruct (Z.leb_spec a b); try lia
         | |- context [?a =? ?b] => destruct (Z.eqb_spec a b); try lia
         end; reflexivity.
Qed.

Lemma dec_no_space z : no_space (dec z) = true.
Proof.
  unfold dec, NilZero.string_of_int, NilZero.string_of_uint.
  destruct (Z.to_int z) as [d | d]; destruct d;
    try reflexivity;
    cbn [no_space]; try (apply all_digits_no_space, (digits_of_uint (_ d)));
    try (cbn; apply all_digits_no_space, digits_of_uint).
Qed.

Lemma py_int_dec z : py_int (dec z) = Some z.
Proof.
  unfold py_int, dec. rewrite NilZero.isi.
  - cbn. rewrite DecimalZ.of_to. reflexivity.
  - destruct z; cbn; intros [= H]; try discriminate;
      exact (DecimalPos.Unsigned.to_uint_nonnil _ H).
  - destruct z; cbn; intros [= H]; try discriminate;
      exact (DecimalPos.Unsigned.to_uint_nonnil _ H).
Qed.

(** X8: a phone number that the sheet holds as an integer goes out as its
    decimal text: the text has no white space, so stripping leaves it
    whole, it reads back as the same integer, and it is the [to_number] of
    both the payload and the result. *)
Theorem X8_integer_cell_is_sent_in_decimal
    w row tid chid iu ifn cid sec delay h z :
  dict_get "to_number" row = Some (PInt z) ->
  exists r req out evs payload,
    send_whatsapp w row tid chid iu ifn cid sec delay h =
      (Ok r, h ++ Http req out :: evs) /\
    req_json req = Some (PDict payload) /\
    dict_get "to_number" payload = Some (PStr (dec z)) /\
    to_number r = dec z /\
    py_int (to_number r) = Some z /\
    no_space (to_number r) = true.
Proof.
  intros Hcell.
  destruct (send_whatsapp_returns w row tid chid iu ifn cid sec delay h)
    as (r & evs & Hrun & Hrec & _).
  unfold recipient_in, recipient_of in Hrec. injection Hrec as Hnum _.
  assert (Hdec : strip (py_str (row_get "to_number" row)) = dec z).
  { unfold row_get. rewrite Hcell. cbn [py_str py_repr].
    apply strip_no_space, dec_no_space. }
  exists r. eexists. eexists. exists evs. eexists.
  split; [exact Hrun|]. split; [reflexivity|].
  rewrite Hnum, Hdec.
  repeat split; try reflexivity; [apply py_int_dec | apply dec_no_space].
Qed.

Lemma X8_witness :
  exists r req out evs payload,
    send_whatsapp Scenario.all_well Scenario.ani "template" "channel" None None
      "client" "secret" 0 [] = (Ok r, [] ++ Http req out :: evs) /\
    req_json req = Some (PDict payload) /\
    dict_get "to_number" payload = Some (PStr (dec 628111)) /\
    to_number r = dec 628111 /\
    py_int (to_number r) = Some 628111 /\
    no_space (to_number r) = true.
Proof.
  apply (X8_integer_cell_is_sent_in_decimal Scenario.all_well Scenario.ani
           "template" "channel" None None "client" "secret" 0 [] 628111).
  reflexivity.
Defined.

(** X9: a cell that the sheet holds as a floating-point number goes out
    as the text Python prints for it, its fractional part included
    (628111.0 for a column that pandas read as floats, nan for a cell it
    found empty): when that text has no white space it is the [to_number]
    of the payload and of the result. *)
Theorem X9_float_cell_is_sent_as_printed
    w row tid chid iu ifn cid sec delay h repr :
  dict_get "to_number" row = Some (PFloat repr) ->
  no_space repr = true ->
  exists r req out evs payload,
    send_whatsapp w row tid chid iu ifn cid sec delay h =
      (Ok r, h ++ Http req out :: evs) /\
    req_json req = Some (PDict payload) /\
    dict_get "to_number" payload = Some (PStr repr) /\
    to_number r = repr.
Proof.
  intros Hcell Hrepr.
  destruct (send_whatsapp_returns w row tid chid iu ifn cid sec delay h)
    as (r & evs & Hrun & Hrec & _).
  unfold recipient_in, recipient_of in Hrec. injection Hrec as Hnum _.
  assert (Htext : strip (py_str (row_get "to_number" row)) = repr).
  { unfold row_get. rewrite Hcell. cbn [py_str py_repr].
    apply strip_no_space, Hrepr. }
  exists r. eexists. eexists. exists evs. eexists.
  split; [exact Hrun|]. split; [reflexivity|].
  rewrite Hnum, Htext. split; reflexivity.
Qed.

Lemma X9_witness :
  exists r req out evs payload,
    send_whatsapp Scenario.all_well
      [("to_number", PFloat "nan"); ("to_name", PStr "Ani")]
      "template" "channel" None None "client" "secret" 0 [] =
      (Ok r, [] ++ Http req out :: evs) /\
    req_json req = Some (PDict payload) /\
    dict_get "to_number" payload = Some (PStr "nan") /\
    to_number r = "nan".
Proof.
  apply (X9_float_cell_is_sent_as_printed Scenario.all_well
           [("to_number", PFloat "nan"); ("to_name", PStr "Ani")]
           "template" "channel" None None "client" "secret" 0 [] "nan");
    reflexivity.
Defined.

(** X10: a row without the [to_number] key is not skipped: the send is
    made all the same, with the empty text as [to_number] in the payload
    and in the result. *)
Theorem X10_row_without_number_is_still_sent
    w row tid chid iu ifn cid sec delay h :
  dict_get "to_number" row = None ->
  exists r out evs,
    send_whatsapp w row tid chid iu ifn cid sec delay h =
      (Ok r, h ++ Http (post_request w row tid chid iu ifn cid sec h) out :: evs) /\
    req_method (post_request w row tid chid iu ifn cid sec h) = "POST" /\
    (exists payload,
       req_json (post_request w row tid chid iu ifn cid sec h)
         = Some (PDict payload) /\
       dict_get "to_number" payload = Some (PStr "")) /\
    to_number r = "".
Proof.
  intros Hcell.
  destruct (send_whatsapp_returns w row tid chid iu ifn cid sec delay h)
    as (r & evs & Hrun & Hrec & _).
  unfold recipient_in, recipient_of in Hrec. injection Hrec as Hnum _.
  assert (Htext : strip (py_str (row_get "to_number" row)) = "").
  { unfold row_get. rewrite Hcell. reflexivity. }
  exists r. eexists. exists evs.
  split; [exact Hrun|]. split; [reflexivity|].
  split.
  - eexists. split; [reflexivity|]. rewrite Htext. reflexivity.
  - rewrite Hnum. exact Htext.
Qed.

Lemma X10_witness :
  exists r out evs,
    send_whatsapp Scenario.all_well [("to_name", PStr "Ani")]
      "template" "channel" None None "client" "secret" 0 [] =
      (Ok r, [] ++ Http (post_request Scenario.all_well [("to_name", PStr "Ani")]
                           "template" "channel" None None "client" "secret" [])
                        out :: evs) /\
    req_method (post_request Scenario.all_well [("to_name", PStr "Ani")]
                  "template" "channel" None None "client" "secret" []) = "POST" /\
    (exists payload,
       req_json (post_request Scenario.all_well [("to_name", PStr "Ani")]
                   "template" "channel" None None "client" "secret" [])
         = Some (PDict payload) /\
       dict_get "to_number" payload = Some (PStr "")) /\
    to_number r = "".
Proof.
  apply (X10_row_without_number_is_still_sent Scenario.all_well
           [("to_name", PStr "Ani")] "template" "channel" None None
           "client" "secret" 0 []).
  reflexivity.
Defined.

(** * Further properties of the batch and of the run *)

Lemma send_whatsapp_observed w row tid chid iu ifn cid sec delay h :
  exists r evs,
    send_whatsapp w row tid chid iu ifn cid sec delay h = (Ok r, h ++ evs) /\
    sends evs = [post_request w row tid chid iu ifn cid sec h] /\
    List.length (log_fetches evs) = (if truthy (broadcast_id r) then 1 else 0)%nat /\
    progress_values evs = [].
Proof.
  destruct (send_whatsapp_shape w row tid chid iu ifn cid sec delay h)
    as (r & evs & Hrun & [(out & -> & Hid & _) | (rp & gout & -> & _ & Hid & _)]);
    exists r; eexists; (split; [exact Hrun|]); rewrite Hid; cbn;
    repeat split; reflexivity.
Qed.

(** What the loop does over its rows: the sends, the log fetches and the
    progress values. *)
Lemma batch_loop_trace w c total :
  forall rows i results h,
    rows = [] \/ total <> 0 ->
    exists rs evs,
      batch_loop w c total i rows results h = (Ok (results ++ rs), h ++ evs) /\
      List.length rs = List.length rows /\
      map req_json (sends evs) =
        map (fun row => Some (PDict (payload_of c row))) rows /\
      List.length (log_fetches evs) = List.length (filter with_id rs) /\
      progress_values evs =
        map (fun k => (inject_Z k / inject_Z total)%Q)
            (positions i (List.length rows)).
Proof.
  induction rows as [|row rest IH]; intros i results h Htotal.
  - exists [], []. cbn. rewrite !app_nil_r. repeat split.
  - destruct Htotal as [Hnil | Htotal]; [discriminate|].
    cbn [batch_loop]. unfold bind at 1. unfold emit at 1.
    unfold bind at 1.
    match goal with
    | |- context [send_whatsapp w row ?t ?ch ?u ?f ?ci ?se ?d ?hh] =>
        destruct (send_whatsapp_observed w row t ch u f ci se d hh)
          as (r & evs & Hrun & Hsends & Hgets & Hprog)
    end.
    rewrite Hrun.
    unfold bind at 1, lift at 1, py_div.
    destruct (total =? 0) eqn:Hz; [apply Z.eqb_eq in Hz; contradiction|].
    unfold bind at 1, emit at 1.
    match goal with
    | |- context [batch_loop w c total (i + 1) rest (results ++ [r]) ?hh] =>
        destruct (IH (i + 1) (results ++ [r]) hh (or_intror Htotal))
          as (rs & evs' & Hloop & Hlen & Hsends' & Hgets' & Hprog')
    end.
    rewrite Hloop.
    exists (r :: rs). eexists.
    split; [rewrite <- !app_assoc; cbn [app]; reflexivity|].
    split; [cbn; rewrite Hlen; reflexivity|].
    split; [|split].
    + cbn [sends]. rewrite !sends_app, Hsends. cbn [sends app map].
      rewrite Hsends'. reflexivity.
    + cbn [log_fetches]. rewrite !log_fetches_app, !length_app, Hgets.
      cbn [log_fetches List.length]. rewrite Hgets'.
      cbn [filter]. unfold with_id at 2.
      destruct (truthy (broadcast_id r)); cbn; lia.
    + cbn [progress_values]. rewrite !progress_values_app, Hprog.
      cbn [progress_values app]. rewrite Hprog'. reflexivity.
Qed.

Lemma run_batch_trace w c df h :
  exists results evs,
    run_batch w c df h = (Ok results, h ++ evs) /\
    List.length results = List.length (cells df) /\
    map req_json (sends evs) =
      map (fun row => Some (PDict (payload_of c row))) (to_dict_records df) /\
    List.length (log_fetches evs) = List.length (filter with_id results) /\
    progress_values evs =
      0%Q :: map (fun k => (inject_Z k / inject_Z (len df))%Q)
               (positions 1 (List.length (cells df))).
Proof.
  unfold run_batch, bind, emit.
  assert (Htotal : to_dict_records df = [] \/ len df <> 0).
  { unfold len. rewrite <- to_dict_records_length.
    destruct (to_dict_records df); [left; reflexivity|right; cbn; lia]. }
  destruct (batch_loop_trace w c (len df) (to_dict_records df) 1 []
              (h ++ [ProgressBar 0]) Htotal)
    as (rs & evs & Hloop & Hlen & Hsends & Hgets & Hprog).
  rewrite Hloop. exists rs. eexists.
  split; [rewrite <- app_assoc; cbn [app]; reflexivity|].
  rewrite to_dict_records_length in Hlen, Hprog.
  repeat split; cbn; assumption || (rewrite Hprog; reflexivity).
Qed.


Lemma positions_bounds n : forall i k, In k (positions i n) -> i <= k < i + Z.of_nat n.
Proof.
  induction n as [|n IH]; intros i k Hin; [destruct Hin|].
  cbn [positions In] in Hin. destruct Hin as [<- | Hin]; [lia|].
  apply IH in Hin. lia.
Qed.

Lemma positions_last (f : Z -> Q) n : forall i d,
  last (map f (positions i (S n))) d = f (i + Z.of_nat n).
Proof.
  induction n as [|n IH]; intros i d; [cbn; f_equal; lia|].
  change (positions i (S (S n))) with (i :: positions (i + 1) (S n)).
  cbn [map].
  change (last (f i :: map f (positions (i + 1) (S n))) d)
    with (last (map f (positions (i + 1) (S n))) d).
  rewrite IH. f_equal. lia.
Qed.

Lemma ratio_bounds k total :
  1 <= k <= total -> (0 <= inject_Z k / inject_Z total)%Q /\
                     (inject_Z k / inject_Z total <= 1)%Q.
Proof.
  intros Hk. destruct total as [|t|t]; try lia.
  unfold Qle, Qdiv, Qmult, Qinv, inject_Z. cbn. split; lia.
Qed.

Lemma ratio_full total : 0 < total -> (inject_Z total / inject_Z total == 1)%Q.
Proof.
  intros Ht. destruct total as [|t|t]; try lia.
  unfold Qeq, Qdiv, Qmult, Qinv, inject_Z. cbn. lia.
Qed.

(** X12: the progress bar is reset to 0 and then, after the k-th recipient
    of [total], set to [k / total]: every value lies between 0 and 1, as
    the bar requires, the division is never by zero, and when the frame
    has rows the bar is full after the last one. *)
Theorem X12_progress_runs_from_zero_to_one w c df h :
  exists results evs,
    run_batch w c df h = (Ok results, h ++ evs) /\
    progress_values evs =
      0%Q :: map (fun k => (inject_Z k / inject_Z (len df))%Q)
               (positions 1 (List.length (cells df))) /\
    Forall (fun v => (0 <= v)%Q /\ (v <= 1)%Q) (progress_values evs) /\
    (last (progress_values evs) 0
     == if Nat.eqb (List.length (cells df)) 0 then 0 else 1)%Q.
Proof.
  destruct (run_batch_trace w c df h)
    as (results & evs & Hrun & _ & _ & _ & Hprog).
  exists results, evs. split; [exact Hrun|]. split; [exact Hprog|].
  rewrite Hprog. split.
  - constructor; [split; discriminate|].
    apply Forall_forall. intros v Hv. apply in_map_iff in Hv as (k & <- & Hk).
    apply positions_bounds in Hk. apply ratio_bounds. unfold len. lia.
  - unfold len. destruct (List.length (cells df)) as [|n] eqn:Hn.
    + cbn. reflexivity.
    + change (last (0%Q :: map ?f (positions 1 (S n))) 0%Q)
        with (last (map f (positions 1 (S n))) 0%Q).
      rewrite positions_last. cbn [Nat.eqb].
      replace (1 + Z.of_nat n) with (Z.of_nat (S n)) by lia.
      apply ratio_full. lia.
Qed.

Lemma firstn_min {A : Type} (n : nat) (l : list A) :
  firstn (Nat.min n (List.length l)) l = firstn n l.
Proof.
  destruct (Nat.le_ge_cases n (List.length l)) as [Hle | Hge].
  - rewrite Nat.min_l by exact Hle. reflexivity.
  - rewrite Nat.min_r by exact Hge.
    rewrite firstn_all, firstn_all2 by exact Hge. reflexivity.
Qed.

Lemma capped_records c df :
  to_dict_records (capped c df) = firstn (rows_sent c df) (to_dict_records df).
Proof.
  unfold capped, rows_sent.
  destruct (0 <? max_rows c) eqn:Hpos.
  - apply Z.ltb_lt in Hpos.
    destruct (max_rows c =? 0) eqn:Hz; [apply Z.eqb_eq in Hz; lia|].
    cbn [negb andb]. unfold to_dict_records, head. cbn [cells columns].
    rewrite firstn_map, firstn_min. reflexivity.
  - rewrite andb_false_r.
    rewrite <- (to_dict_records_length df), firstn_all. reflexivity.
Qed.

Lemma capped_length c df : List.length (cells (capped c df)) = rows_sent c df.
Proof.
  rewrite <- to_dict_records_length, capped_records, length_firstn.
  rewrite to_dict_records_length. unfold rows_sent.
  destruct (0 <? max_rows c); lia.
Qed.

(** A run that passes the checks is the batch over the capped frame,
    between the notice and the final status. *)
Lemma run_clicked_is_the_batch w number_first c df h :
  preconditions c df = true ->
  exists results evs,
    run_batch w c (capped c df) (h ++ [StInfo]) =
      (Ok results, (h ++ [StInfo]) ++ evs) /\
    run_clicked w number_first c df h =
      (Ok (Finished results), h ++ StInfo :: evs ++ [StatusDone]).
Proof.
  unfold preconditions, run_clicked. intros Hpre.
  rewrite <- andb_assoc in Hpre. apply andb_prop in Hpre as [Hcred Hcols].
  rewrite Hcred. cbn [negb].
  pose proof (validate_dataframe_ok number_first df) as Hok.
  destruct (validate_dataframe number_first df) as [ok missing].
  cbn [fst] in Hok. rewrite Hcols in Hok. subst ok. cbn [negb].
  unfold bind at 1, emit at 1. unfold bind at 1.
  destruct (run_batch_returns w c (capped c df) (h ++ [StInfo]))
    as (results & evs & Hrun & _).
  rewrite Hrun. unfold bind, emit, ret.
  exists results, evs. split; [reflexivity|].
  rewrite <- !app_assoc. reflexivity.
Qed.

(** X13: [max_rows] caps the run.  When it is positive the run sends to
    the first [max_rows] rows only (to all of them when the frame has
    fewer); when it is 0 the run sends to every row.  The results are
    those of exactly these rows, in order, and there is one POST for each. *)
Theorem X13_max_rows_caps_the_run w number_first c df h :
  preconditions c df = true ->
  exists results evs,
    run_clicked w number_first c df h = (Ok (Finished results), h ++ evs) /\
    List.length results = rows_sent c df /\
    map recipient_in results =
      firstn (rows_sent c df) (map recipient_of (to_dict_records df)) /\
    map req_json (sends evs) =
      firstn (rows_sent c df)
        (map (fun row => Some (PDict (payload_of c row))) (to_dict_records df)).
Proof.
  intros Hpre.
  destruct (run_clicked_is_the_batch w number_first c df h Hpre)
    as (results & evs & Hbatch & Hrun).
  destruct (run_batch_trace w c (capped c df) (h ++ [StInfo]))
    as (results' & evs' & Hbatch' & Hlen & Hsends & _).
  destruct (run_batch_returns w c (capped c df) (h ++ [StInfo]))
    as (results'' & evs'' & Hbatch'' & Hrec & _).
  rewrite Hbatch in Hbatch', Hbatch''.
  injection Hbatch' as <- Hevs. apply app_inv_head in Hevs as <-.
  injection Hbatch'' as <- _.
  exists results. eexists. split; [exact Hrun|].
  split; [rewrite Hlen; apply capped_length|].
  split.
  - rewrite Hrec, capped_records, firstn_map. reflexivity.
  - cbn [sends]. rewrite sends_app. cbn [sends]. rewrite app_nil_r.
    rewrite Hsends, capped_records, firstn_map. reflexivity.
Qed.

Lemma X13_witness :
  exists results evs,
    run_clicked Scenario.all_well true
      (Config "client" "secret" "template" "channel" "" "" 0 2)
      Scenario.three [] = (Ok (Finished results), [] ++ evs) /\
    List.length results = 2%nat /\
    map recipient_in results = [("628111", "Ani"); ("628222", "Budi")] /\
    map req_json (sends evs) =
      firstn 2
        (map (fun row =>
                Some (PDict (payload_of
                               (Config "client" "secret" "template" "channel"
                                  "" "" 0 2) row)))
             (to_dict_records Scenario.three)).
Proof.
  apply (X13_max_rows_caps_the_run Scenario.all_well true
           (Config "client" "secret" "template" "channel" "" "" 0 2)
           Scenario.three []).
  reflexivity.
Defined.

(** * The checks before the run *)

(** X14: [validate_dataframe] accepts a frame exactly when it has both
    columns [to_number] and [to_name]; the list it returns holds exactly
    the required columns the frame lacks, each once, and is empty exactly
    when the frame is accepted, whatever the order the set is iterated in. *)
Theorem X14_validate_dataframe_lists_what_is_missing number_first df :
  fst (validate_dataframe number_first df) =
    mem "to_number" (columns df) && mem "to_name" (columns df) /\
  (forall x, In x (snd (validate_dataframe number_first df)) <->
             (x = "to_number" \/ x = "to_name") /\ mem x (columns df) = false) /\
  NoDup (snd (validate_dataframe number_first df)) /\
  (fst (validate_dataframe number_first df) = true <->
   snd (validate_dataframe number_first df) = []).
Proof.
  unfold validate_dataframe, required.
  destruct (mem "to_number" (columns df)) eqn:Hn,
           (mem "to_name" (columns df)) eqn:Hm, number_first;
    cbn [filter fst snd]; rewrite ?Hn, ?Hm; cbn [negb List.length Nat.eqb andb];
    (split; [reflexivity|]);
    (split; [intros x; cbn [In]; split;
             [intros H; repeat destruct H as [H | H]; subst; auto; contradiction
             |intros [[-> | ->] H]; auto; congruence]
            |]);
    (split; [repeat constructor; cbn [In]; intuition discriminate|]);
    split; intros H; try reflexivity; discriminate.
Qed.

(** X15: columns beyond the required two never matter: a frame that has
    every column of an accepted frame is accepted too, whatever its rows,
    the order of its columns and the order the set is iterated in. *)
Theorem X15_validate_dataframe_ignores_other_columns
    number_first number_first' df df' :
  (forall x, mem x (columns df) = true -> mem x (columns df') = true) ->
  fst (validate_dataframe number_first df) = true ->
  fst (validate_dataframe number_first' df') = true.
Proof.
  intros Hsub. rewrite !validate_dataframe_ok. intros Hok.
  apply andb_prop in Hok as [Hn Hm].
  rewrite (Hsub _ Hn), (Hsub _ Hm). reflexivity.
Qed.

Lemma X15_witness :
  fst (validate_dataframe false
         (Frame ["city"; "to_name"; "to_number"] [])) = true.
Proof.
  apply (X15_validate_dataframe_ignores_other_columns true false
           Scenario.three (Frame ["city"; "to_name"; "to_number"] [])).
  - intros x. cbn.
    destruct (String.eqb x "to_number"), (String.eqb x "to_name"),
      (String.eqb x "city"); cbn; auto.
  - reflexivity.
Defined.

(** X16: the credentials are checked before the columns: when one of the
    client id, client secret, template id and channel id is empty the run
    stops with the credentials diagnostic alone, also on a frame that
    lacks the required columns, and the columns are not reported. *)
Theorem X16_credentials_are_checked_first w number_first c df h :
  nonempty (client_id c) && nonempty (client_secret c)
  && nonempty (template_id c) && nonempty (channel_id c) = false ->
  run_clicked w number_first c df h =
    (Ok Stopped, h ++ [StError credentials_missing]).
Proof.
  intros Hcred. unfold run_clicked. rewrite Hcred. reflexivity.
Qed.

Lemma X16_witness :
  run_clicked Scenario.all_well true
    (Config "client" "" "template" "channel" "" "" 0 0) Scenario.no_number [] =
    (Ok Stopped, [] ++ [StError credentials_missing]).
Proof.
  apply (X16_credentials_are_checked_first Scenario.all_well true
           (Config "client" "" "template" "channel" "" "" 0 0)
           Scenario.no_number []).
  reflexivity.
Defined.

(** X17: with all four credentials present, a frame that lacks a required
    column stops the run with the diagnostic [Missing required columns: ]
    followed by the names of the columns it lacks, separated by a comma
    and a space; when both are missing their order is the one the set is
    iterated in. *)
Theorem X17_missing_columns_are_named w number_first c df h :
  nonempty (client_id c) && nonempty (client_secret c)
  && nonempty (template_id c) && nonempty (channel_id c) = true ->
  mem "to_number" (columns df) && mem "to_name" (columns df) = false ->
  run_clicked w number_first c df h =
    (Ok Stopped,
     h ++ [StError ("Missing required columns: " +++ missing_list number_first df)]).
Proof.
  intros Hcred Hcols. unfold run_clicked, missing_list. rewrite Hcred. cbn [negb].
  unfold validate_dataframe, required.
  destruct (mem "to_number" (columns df)) eqn:Hn,
           (mem "to_name" (columns df)) eqn:Hm, number_first;
    try discriminate;
    cbn [filter]; rewrite ?Hn, ?Hm; reflexivity.
Qed.

Lemma X17_witness :
  run_clicked Scenario.all_well true (Scenario.cfg 0) Scenario.no_number [] =
    (Ok Stopped, [] ++ [StError "Missing required columns: to_number"]).
Proof.
  apply (X17_missing_columns_are_named Scenario.all_well true (Scenario.cfg 0)
           Scenario.no_number []); reflexivity.
Defined.

(** * The shape of the signature *)

Lemma compress_length h block :
  List.length h = 8%nat -> List.length (SHA256.compress h block) = 8%nat.
Proof.
  intros Hh. unfold SHA256.compress. rewrite length_map, length_combine, Hh.
  reflexivity.
Qed.

Lemma blocks_length fuel : forall h ws,
  List.length h = 8%nat -> List.length (SHA256.blocks fuel h ws) = 8%nat.
Proof.
  induction fuel as [|fuel IH]; intros h ws Hh; [exact Hh|].
  cbn [SHA256.blocks]. destruct ws; [exact Hh|].
  apply IH, compress_length, Hh.
Qed.

Lemma be_bytes_flat_length (l : list Z) :
  List.length (flat_map (SHA256.be_bytes 4) l) = (4 * List.length l)%nat.
Proof.
  induction l as [|x l IH]; [reflexivity|].
  cbn [flat_map]. rewrite length_app, IH. cbn [SHA256.be_bytes List.length]. lia.
Qed.

Lemma digest_length msg : List.length (SHA256.digest msg) = 32%nat.
Proof.
  unfold SHA256.digest. rewrite be_bytes_flat_length, blocks_length; reflexivity.
Qed.

Lemma hmac_length key msg : List.length (hmac_sha256 key msg) = 32%nat.
Proof. apply digest_length. Qed.

Lemma get_has_char s : forall n c, String.get n s = Some c -> has_char c s = true.
Proof.
  induction s as [|a s IH]; intros n c Hget; [discriminate|].
  cbn [has_char]. destruct n as [|n]; cbn in Hget.
  - injection Hget as ->. rewrite Ascii.eqb_refl. reflexivity.
  - rewrite (IH _ _ Hget). apply orb_true_r.
Qed.

Lemma sym_no_quote z : Ascii.eqb (Base64.sym z) "034"%char = false.
Proof.
  unfold Base64.sym.
  destruct (String.get (Z.to_nat z) Base64.alphabet) as [c|] eqn:Hget;
    [|reflexivity].
  apply get_has_char in Hget.
  destruct (Ascii.eqb c "034"%char) eqn:Hc; [|reflexivity].
  apply Ascii.eqb_eq in Hc. subst c. discriminate.
Qed.

Lemma b64_no_quote fuel : forall l,
  has_char "034"%char (Base64.b64 fuel l) = false.
Proof.
  induction fuel as [|fuel IH]; intros l; [reflexivity|].
  cbn [Base64.b64]. destruct l as [|a [|b [|c r]]];
    cbn [has_char]; rewrite ?sym_no_quote, ?IH; reflexivity.
Qed.

Lemma b64_of_32 l :
  List.length l = 32%nat ->
  String.length (Base64.b64encode l) = 44%nat /\
  String.get 43 (Base64.b64encode l) = Some "="%char.
Proof.
  intros Hlen. unfold Base64.b64encode. rewrite Hlen.
  do 32 (destruct l as [|? l]; [discriminate|]).
  destruct l; [|discriminate]. split; reflexivity.
Qed.

(** X18: whatever the secret and the signed text, the signature is 44
    characters of base64 that end in [=] (32 bytes of digest) and has no
    double quote in it, so it cannot end the [signature="..."] field of
    the [Authorization] header early. *)
Theorem X18_signature_is_44_characters now method path id secret :
  exists sig,
    dict_get "Authorization" (generate_auth_headers now method path id secret)
      = Some (spec_authorization id sig) /\
    String.length sig = 44%nat /\
    String.get 43 sig = Some "="%char /\
    has_char "034"%char sig = false.
Proof.
  exists (spec_signature secret (strftime now) method path).
  split.
  { unfold generate_auth_headers. cbn [dict_get String.eqb Ascii.eqb Bool.eqb].
    unfold spec_authorization, spec_signature, signature, string_to_sign,
      spec_canonical, request_line.
    reflexivity. }
  unfold spec_signature.
  destruct (b64_of_32 _ (hmac_length (encode secret)
                           (encode (spec_canonical (strftime now) method path))))
    as [Hlen Hlast].
  repeat split; [exact Hlen | exact Hlast | apply b64_no_quote].
Qed.

(** * The page around the run *)






(** X21: on a frame with rows that lacks a required column the page shows
    the diagnostic of the missing columns in place of the preview, and a
    click then starts a run that stops on the same diagnostic: with the
    credentials present the message appears twice, once from the preview
    and once from the run, and no request is made. *)
Theorem X21_missing_columns_are_reported_twice w number_first c df h :
  empty df = false ->
  nonempty (client_id c) && nonempty (client_secret c)
  && nonempty (template_id c) && nonempty (channel_id c) = true ->
  mem "to_number" (columns df) && mem "to_name" (columns df) = false ->
  page w number_first c df true h =
    ([ErrorBox ("Missing required columns: " +++ missing_list number_first df)],
     Some (Ok Stopped,
           h ++ [StError ("Missing required columns: "
                          +++ missing_list number_first df)])).
Proof.
  intros Hempty Hcred Hcols.
  unfold page, preview, run_clicked, missing_list.
  rewrite Hempty, Hcred. cbn [negb andb].
  unfold validate_dataframe, required.
  destruct (mem "to_number" (columns df)) eqn:Hn,
           (mem "to_name" (columns df)) eqn:Hm, number_first;
    try discriminate;
    cbn [filter]; rewrite ?Hn, ?Hm; reflexivity.
Qed.

Lemma X21_witness :
  page Scenario.all_well true (Scenario.cfg 0) Scenario.no_number true [] =
    ([ErrorBox "Missing required columns: to_number"],
     Some (Ok Stopped, [] ++ [StError "Missing required columns: to_number"])).
Proof.
  apply (X21_missing_columns_are_reported_twice Scenario.all_well true
           (Scenario.cfg 0) Scenario.no_number []); reflexivity.
Defined.

Lemma get_secret_unreadable text key fallback :
  get_secret (Raised text) key fallback = fallback.
Proof. reflexivity. Qed.

(** X22: when the secrets cannot be read at all, the sidebar in secrets
    mode does not fail: all four credentials fall back to the empty text,
    the warning about missing secrets is shown, and a run started with
    them stops on the credentials diagnostic without any request. *)
Theorem X22_unreadable_secrets_stop_the_run
    text typed delay cap w number_first df h :
  sidebar_credentials (Raised text) true typed =
    (Credentials "" "" "" "",
     [Warning
        "Some secrets are missing. Provide them below or set them in app secrets."])
  /\
  run_clicked w number_first
    (config_of (fst (sidebar_credentials (Raised text) true typed)) delay cap)
    df h = (Ok Stopped, h ++ [StError credentials_missing]).
Proof. split; reflexivity. Qed.

(** X23: in secrets mode a credential that the secrets lack is read as
    the empty text, and that is enough to stop the run: whichever of the
    four keys is missing, the sidebar warns and the run stops on the
    credentials diagnostic without any request. *)
Theorem X23_a_missing_secret_stops_the_run
    d key typed delay cap w number_first df h :
  In key ["CLIENT_ID"; "CLIENT_SECRET"; "TEMPLATE_ID"; "CHANNEL_ID"] ->
  dict_get key d = None ->
  snd (sidebar_credentials (Ok d) true typed) =
    [Warning
       "Some secrets are missing. Provide them below or set them in app secrets."]
  /\
  run_clicked w number_first
    (config_of (fst (sidebar_credentials (Ok d) true typed)) delay cap)
    df h = (Ok Stopped, h ++ [StError credentials_missing]).
Proof.
  intros Hkey Hmissing.
  assert (Hcred :
            nonempty (get_secret (Ok d) "CLIENT_ID" "")
            && nonempty (get_secret (Ok d) "CLIENT_SECRET" "")
            && nonempty (get_secret (Ok d) "TEMPLATE_ID" "")
            && nonempty (get_secret (Ok d) "CHANNEL_ID" "") = false).
  { cbn [In] in Hkey.
    destruct Hkey as [<- | [<- | [<- | [<- | []]]]];
      unfold get_secret, secrets_get; rewrite Hmissing;
      cbn [nonempty String.eqb negb];
      rewrite ?andb_false_r, ?andb_false_l; reflexivity. }
  split.
  - unfold sidebar_credentials. cbn [snd]. rewrite Hcred. reflexivity.
  - unfold run_clicked, config_of, sidebar_credentials.
    cbn [fst client_id client_secret template_id channel_id
         cred_client_id cred_client_secret cred_template_id cred_channel_id].
    rewrite Hcred. reflexivity.
Qed.

Lemma X23_witness :
  snd (sidebar_credentials
         (Ok [("CLIENT_ID", "client"); ("CLIENT_SECRET", "secret");
              ("TEMPLATE_ID", "template")])
         true (Credentials "" "" "" "")) =
    [Warning
       "Some secrets are missing. Provide them below or set them in app secrets."]
  /\
  run_clicked Scenario.all_well true
    (config_of
       (fst (sidebar_credentials
               (Ok [("CLIENT_ID", "client"); ("CLIENT_SECRET", "secret");
                    ("TEMPLATE_ID", "template")])
               true (Credentials "" "" "" "")))
       0 0)
    Scenario.three [] = (Ok Stopped, [] ++ [StError credentials_missing]).
Proof.
  apply (X23_a_missing_secret_stops_the_run
           [("CLIENT_ID", "client"); ("CLIENT_SECRET", "secret");
            ("TEMPLATE_ID", "template")]
           "CHANNEL_ID" (Credentials "" "" "" "") 0 0
           Scenario.all_well true Scenario.three []).
  - right. right. right. left. reflexivity.
  - reflexivity.
Defined.

(** * The requests and the media of a send *)

(** X24: every request of a send is signed for what it is: its headers are
    those the signer returns for the method of the request and for the
    path of its address under the API base, with the client id and secret
    of the call, at a reading of the clock; a POST is never sent with the
    signature of the log path nor a log fetch with that of the POST. *)
Theorem X24_requests_are_signed_for_their_own_path
    w row tid chid iu ifn cid sec delay h :
  exists r evs,
    send_whatsapp w row tid chid iu ifn cid sec delay h = (Ok r, h ++ evs) /\
    Forall (fun rq =>
              exists now path,
                req_url rq = API_BASE +++ path /\
                req_headers rq =
                  generate_auth_headers now (req_method rq) path cid sec)
           (requests evs).
Proof.
  destruct (send_whatsapp_shape w row tid chid iu ifn cid sec delay h)
    as (r & evs & Hrun & [(out & -> & _) | (rp & gout & -> & _)]);
    exists r; eexists; (split; [exact Hrun|]); cbn [requests].
  - constructor; [|constructor].
    exists (utcnow w h), post_url_path. split; reflexivity.
  - constructor; [|constructor; [|constructor]].
    + exists (utcnow w h), post_url_path. split; reflexivity.
    + eexists. exists (get_url_path (broadcast_id r)). split; reflexivity.
Qed.

Lemma nonempty_false s : nonempty s = false -> s = "".
Proof.
  unfold nonempty. intros H. apply negb_false_iff in H.
  apply String.eqb_eq in H. exact H.
Qed.

Lemma media_filename_eq c :
  py_or (strip_or_none (image_filename c)) "banner.jpg" = media_filename c.
Proof.
  unfold strip_or_none, media_filename, py_or, nonempty.
  destruct (String.eqb (image_filename c) "") eqn:Hf; cbn [negb].
  - apply String.eqb_eq in Hf. rewrite Hf. reflexivity.
  - destruct (String.eqb (strip (image_filename c)) ""); reflexivity.
Qed.

(** X25: the media of a run is read through [strip]: a media URL that is
    empty or only white space gives a payload without header block; any
    other gives the header block of the stripped URL, and its file name
    is the stripped configured name, or [banner.jpg] when that is empty
    or only white space. *)
Theorem X25_blank_media_counts_as_none c row :
  exists params,
    dict_get "parameters" (payload_of c row) = Some (PDict params) /\
    dict_get "header" params =
      if nonempty (strip (image_url c))
      then Some (PDict
                   [ ("format", PStr "IMAGE");
                     ("params",
                      PList
                        [ PDict [("key", PStr "url");
                                 ("value", PStr (strip (image_url c)))];
                          PDict [("key", PStr "filename");
                                 ("value", PStr (media_filename c))] ]) ])
      else None.
Proof.
  unfold payload_of, build_payload.
  eexists. split; [reflexivity|].
  rewrite <- media_filename_eq.
  unfold strip_or_none at 1 2.
  destruct (nonempty (image_url c)) eqn:Hurl.
  - cbn [truthy_opt]. fold (nonempty (strip (image_url c))).
    destruct (nonempty (strip (image_url c))) eqn:Hs; reflexivity.
  - apply nonempty_false in Hurl. rewrite Hurl. reflexivity.
Qed.
